(** * twisted.python.logger._format: formatting of logging events

    A shallow embedding of [src/twisted/python/logger/_format.py] and the
    properties of its specification.

    Conventions of the embedding (Python 3 semantics throughout):
    - a Python [dict] with text keys is an association list in insertion
      order, looked up by first match and updated in place;
    - text is [string]; a character stands for one code point below 256;
    - code that can raise lives in the monad [M]: a computation receives the
      world (the cells of the stateful objects an event may reference) and
      returns either a value or the raised exception, together with the world
      it leaves behind.  Effects performed before a raise persist, as they do
      in Python;
    - [exn] models the exceptions that Python code raises; [is_Exception]
      tells the instances of [Exception], which the [except Exception]
      clauses of the module catch, from the other instances of
      [BaseException] ([KeyboardInterrupt], [SystemExit], [GeneratorExit]),
      which these clauses let through;
    - the template engine ([string.Formatter]), the built-in [format] and
      [getattr], UTF-8 decoding, [Failure] and the local-time functions are
      collaborators of the module; they are the members of the class
      [Externals].  General theorems hold for every instance; the instance
      [cpython] at the end of the definitions is used to run examples. *)

From stdpp Require Import base gmap strings pretty list.
From Stdlib Require Import Ascii String ZArith Lia.

Local Open Scope string_scope.
Local Open Scope list_scope.

(** ** Exceptions *)

Inductive exn_arg : Type :=
| AStr (s : string)
| AInt (z : Z).

(** [Exn cls a] is [cls(a)]; [ExnBadStr cls e] is an instance of a
    user-defined exception class whose [__str__] raises [e]. *)
Inductive exn : Type :=
| Exn (cls : string) (arg : exn_arg)
| ExnBadStr (cls : string) (inner : exn).

Definition exn_class (e : exn) : string :=
  match e with
  | Exn cls _ | ExnBadStr cls _ => cls
  end.

(** The built-in classes that derive from [BaseException] and not from
    [Exception]. *)
Definition base_only : list string :=
  ["BaseException"; "KeyboardInterrupt"; "SystemExit"; "GeneratorExit"].

(** [isinstance(e, Exception)]: every other class, the user-defined ones
    included, derives from [Exception]. *)
Definition is_Exception (e : exn) : bool :=
  negb (existsb (String.eqb (exn_class e)) base_only).

Inductive result (A : Type) : Type :=
| Ok (a : A)
| Raise (e : exn).
Arguments Ok {A} a.
Arguments Raise {A} e.

(** ** The world and the monad of effectful code *)

Record world : Type := World { cells : gmap nat nat }.

Definition cell (w : world) (l : nat) : nat := default 0 (cells w !! l).

Definition bump (w : world) (l : nat) : world :=
  World (<[l := S (cell w l)]> (cells w)).

Definition M (A : Type) : Type := world -> result A * world.

Definition ret {A} (a : A) : M A := fun w => (Ok a, w).

Definition raise {A} (e : exn) : M A := fun w => (Raise e, w).

Definition bind {A B} (m : M A) (k : A -> M B) : M B :=
  fun w => match m w with
           | (Ok a, w') => k a w'
           | (Raise e, w') => (Raise e, w')
           end.

(** [try: m except Exception as e: h e]: an exception that is not an
    instance of [Exception] is not caught. *)
Definition try_except {A} (m : M A) (h : exn -> M A) : M A :=
  fun w => match m w with
           | (Ok a, w') => (Ok a, w')
           | (Raise e, w') => if is_Exception e then h e w' else (Raise e, w')
           end.

(** [try: m except: h e], the bare clause, which catches every exception. *)
Definition try_bare {A} (m : M A) (h : exn -> M A) : M A :=
  fun w => match m w with
           | (Ok a, w') => (Ok a, w')
           | (Raise e, w') => h e w'
           end.

Definition lift {A} (r : result A) : M A :=
  match r with Ok a => ret a | Raise e => raise e end.

Notation "'let!' x ':=' m 'in' k" := (bind m (fun x => k))
  (at level 10, x pattern, m at level 100, k at level 200).

(** ** Python values *)

(** What a [__str__], [__repr__] or [__format__] method of a user-defined
    class does (for [__format__]: with the empty format specification):
    return a fixed text, raise, or (as a counting object does) return the
    content of a cell and increment it. *)
Inductive behaviour : Type :=
| Returns (s : string)
| Raises (e : exn)
| Counts (l : nat).

#[warnings="-register-all"]
Inductive value : Type :=
| VNone
| VInt (z : Z)
| VStr (s : string)
| VBytes (b : string)
| VDict (kvs : list (string * value))
| VLambda (r : value)                 (* [lambda: r] *)
| VRaiser (e : exn)                   (* a callable whose call raises [e] *)
| VNext (l : nat)                     (* a callable returning successive integers *)
| VObj (cls : string) (attrs : list (string * value)) (str_ repr_ : behaviour)
       (format_ : option behaviour)   (* [None]: [__format__] is that of [object] *).

Abbreviation dict := (list (string * value)).

(** *** Dictionaries *)

Fixpoint dict_get (d : dict) (k : string) : option value :=
  match d with
  | [] => None
  | (k', v) :: d' => if decide (k' = k) then Some v else dict_get d' k
  end.

Definition dict_mem (k : string) (d : dict) : bool :=
  match dict_get d k with Some _ => true | None => false end.

(** [d[k] = v] *)
Fixpoint dict_set (d : dict) (k : string) (v : value) : dict :=
  match d with
  | [] => [(k, v)]
  | (k', v') :: d' =>
      if decide (k' = k) then (k, v) :: d' else (k', v') :: dict_set d' k v
  end.

(** [d.get(k, dflt)] *)
Definition dict_get_default (d : dict) (k : string) (dflt : value) : value :=
  default dflt (dict_get d k).

(** *** Text helpers *)

Fixpoint join (sep : string) (l : list string) : string :=
  match l with
  | [] => ""
  | [s] => s
  | s :: l' => s +:+ sep +:+ join sep l'
  end.

Fixpoint contains_char (c : ascii) (s : string) : bool :=
  match s with
  | EmptyString => false
  | String c' s' => if decide (c' = c) then true else contains_char c s'
  end.

Definition hex_digit (n : N) : ascii :=
  match n with
  | 0 => "0" | 1 => "1" | 2 => "2" | 3 => "3" | 4 => "4" | 5 => "5"
  | 6 => "6" | 7 => "7" | 8 => "8" | 9 => "9" | 10 => "a" | 11 => "b"
  | 12 => "c" | 13 => "d" | 14 => "e" | _ => "f"
  end%char%N.

Definition hex_escape (c : ascii) : string :=
  let n := N_of_ascii c in
  String "\" (String "x" (String (hex_digit (n / 16)) (String (hex_digit (n mod 16)) ""))).

(** Code points below 256 that [str.isprintable] accepts. *)
Definition printable_text (c : ascii) : bool :=
  let n := N_of_ascii c in
  ((32 <=? n) && (n <? 127) || (161 <=? n) && negb (n =? 173))%N.

Definition printable_byte (c : ascii) : bool :=
  let n := N_of_ascii c in ((32 <=? n) && (n <? 127))%N.

Definition escape_char (printable : ascii -> bool) (quote c : ascii) : string :=
  if decide (c = "\"%char) then "\\"
  else if decide (c = quote) then String "\" (String quote "")
  else if decide (c = "009"%char) then "\t"
  else if decide (c = "010"%char) then "\n"
  else if decide (c = "013"%char) then "\r"
  else if printable c then String c ""
  else hex_escape c.

Fixpoint escape (printable : ascii -> bool) (quote : ascii) (s : string) : string :=
  match s with
  | EmptyString => ""
  | String c s' => escape_char printable quote c +:+ escape printable quote s'
  end.

(** The double quote. *)
Definition dquote : ascii := "034"%char.

Definition quote_for (s : string) : ascii :=
  if contains_char "'"%char s && negb (contains_char dquote s)
  then dquote else "'"%char.

(** [repr] of a text and of a byte string. *)
Definition repr_str (s : string) : string :=
  let q := quote_for s in
  String q (escape printable_text q s +:+ String q "").

Definition repr_bytes (b : string) : string :=
  let q := quote_for b in
  String "b" (String q (escape printable_byte q b +:+ String q "")).

(** *** Exceptions as text *)

Definition repr_arg (a : exn_arg) : string :=
  match a with AStr s => repr_str s | AInt z => pretty z end.

Definition str_arg (a : exn_arg) : string :=
  match a with AStr s => s | AInt z => pretty z end.

(** [str(e)]: [KeyError] shows the representation of its argument. *)
Definition str_exn (e : exn) : M string :=
  match e with
  | Exn cls a => ret (if decide (cls = "KeyError") then repr_arg a else str_arg a)
  | ExnBadStr _ inner => raise inner
  end.

Definition repr_exn (e : exn) : string :=
  match e with
  | Exn cls a => cls +:+ "(" +:+ repr_arg a +:+ ")"
  | ExnBadStr cls _ => cls +:+ "()"
  end.

Definition KeyError (k : string) : exn := Exn "KeyError" (AStr k).
Definition IndexError (msg : string) : exn := Exn "IndexError" (AStr msg).
Definition TypeError (msg : string) : exn := Exn "TypeError" (AStr msg).
Definition ValueError (msg : string) : exn := Exn "ValueError" (AStr msg).
Definition AttributeError (msg : string) : exn := Exn "AttributeError" (AStr msg).

(** *** [repr], [str] and calling *)

Definition run_behaviour (b : behaviour) : M string :=
  match b with
  | Returns s => ret s
  | Raises e => raise e
  | Counts l => fun w => (Ok (pretty (cell w l)), bump w l)
  end.

Fixpoint py_repr (v : value) : M string :=
  match v with
  | VNone => ret "None"
  | VInt z => ret (pretty z)
  | VStr s => ret (repr_str s)
  | VBytes b => ret (repr_bytes b)
  | VDict kvs =>
      let! items :=
        (fix items (kvs : dict) : M (list string) :=
           match kvs with
           | [] => ret []
           | (k, x) :: kvs' =>
               let! rx := py_repr x in
               let! rest := items kvs' in
               ret ((repr_str k +:+ ": " +:+ rx) :: rest)
           end) kvs in
      ret ("{" +:+ join ", " items +:+ "}")
  | VLambda _ => ret "<function <lambda>>"
  | VRaiser _ => ret "<function <lambda>>"
  | VNext _ => ret "<method-wrapper '__next__' of itertools.count object>"
  | VObj _ _ _ repr_ _ => run_behaviour repr_
  end.

(** [str(v)], which is also [unicode(v)]. *)
Definition py_str (v : value) : M string :=
  match v with
  | VStr s => ret s
  | VObj _ _ str_ _ _ => run_behaviour str_
  | _ => py_repr v
  end.

(** [format(v, "")], that is [type(v).__format__(v, "")]: the built-in types
    and [object] give [str(v)] for the empty format specification. *)
Definition py_format (v : value) : M string :=
  match v with
  | VObj _ _ _ _ (Some format_) => run_behaviour format_
  | _ => py_str v
  end.

Definition type_name (v : value) : string :=
  match v with
  | VNone => "NoneType"
  | VInt _ => "int"
  | VStr _ => "str"
  | VBytes _ => "bytes"
  | VDict _ => "dict"
  | VLambda _ | VRaiser _ => "function"
  | VNext _ => "method-wrapper"
  | VObj cls _ _ _ _ => cls
  end.

(** [v()] *)
Definition py_call (v : value) : M value :=
  match v with
  | VLambda r => ret r
  | VRaiser e => raise e
  | VNext l => fun w => (Ok (VInt (Z.of_nat (cell w l))), bump w l)
  | _ => raise (TypeError ("'" +:+ type_name v +:+ "' object is not callable"))
  end.

(** An index as [string.Formatter] hands it to [obj[i]]: an integer when the
    text between the brackets is a number, the text itself otherwise. *)
Inductive index : Type :=
| IInt (n : nat)
| IStr (s : string).

Definition nth_char (s : string) (n : nat) : option ascii := String.get n s.

(** [v[i]] *)
Definition py_getitem (v : value) (i : index) : M value :=
  match v, i with
  | VDict kvs, IStr k =>
      match dict_get kvs k with
      | Some x => ret x
      | None => raise (KeyError k)
      end
  | VDict kvs, IInt n => raise (Exn "KeyError" (AInt (Z.of_nat n)))
  | VStr s, IInt n =>
      match nth_char s n with
      | Some c => ret (VStr (String c ""))
      | None => raise (IndexError "string index out of range")
      end
  | VStr s, IStr _ => raise (TypeError "string indices must be integers")
  | VBytes b, IInt n =>
      match nth_char b n with
      | Some c => ret (VInt (Z.of_N (N_of_ascii c)))
      | None => raise (IndexError "index out of range")
      end
  | VBytes b, IStr _ =>
      raise (TypeError "byte indices must be integers or slices, not str")
  | _, _ => raise (TypeError ("'" +:+ type_name v +:+ "' object is not subscriptable"))
  end.

(** ** The key flattener *)

Record KeyFlattener : Type := { keys : gmap string nat }.

(** [KeyFlattener()] *)
Definition newKeyFlattener : KeyFlattener := {| keys := ∅ |}.

(** What [str.format] writes for a field name that is [None] or a text. *)
Definition format_name (fieldName : option string) : string :=
  default "None" fieldName.

Definition canonicalKey (fieldName formatSpec conversion : option string) : string :=
  format_name fieldName +:+ "!" +:+ default "" conversion +:+ ":" +:+ default "" formatSpec.

Definition flatKey (self : KeyFlattener) (fieldName formatSpec conversion : option string)
  : string * KeyFlattener :=
  let result := canonicalKey fieldName formatSpec conversion in
  let n := S (default 0 (keys self !! result)) in
  let self' := {| keys := <[result := n]> (keys self) |} in
  (if decide (n ≠ 1) then result +:+ "/" +:+ pretty n else result, self').

(** ** Collaborators *)

(** One item of [Formatter.parse]:
    [(literalText, fieldName, formatSpec, conversion)]. *)
Record segment : Type := Segment {
  literalText : string;
  fieldName : option string;
  formatSpec : option string;
  conversion : option string
}.

(** One step of a field path: [.name] or [[i]]. *)
Inductive accessor : Type :=
| Attr (name : string)
| Item (i : index).

(** An iterator that yields items and may then raise instead of stopping:
    the items produced, and the pending exception if there is one. *)
Definition lazily (A : Type) : Type := (list A * option exn)%type.

Class Externals : Type := {
  (** [string.Formatter.parse] on a text *)
  parse : string -> lazily segment;
  (** [_string.formatter_field_name_split] *)
  field_name_split : string -> result (index * lazily accessor);
  (** [getattr(v, name)] where [name] is not an instance attribute of [v] *)
  builtin_getattr : value -> string -> M value;
  (** [format(v, spec)] for a non-empty [spec] *)
  format_with_spec : value -> string -> M string;
  (** [bytes.decode("utf-8")] *)
  decode_utf8 : string -> result string;
  (** Modelled from the spec: [twisted.python.failure.Failure], of which the
      module only uses the text that the captured failure is rendered as. *)
  failure_text : exn -> string;
  (** Modelled from the spec: the placeholder of
      [twisted.python.reflect.safe_repr], used when [repr] raised. *)
  unrepresentable : value -> exn -> string;
  (** Modelled from the spec: [FixedOffsetTimeZone.fromLocalTimeStamp],
      [DateTime.fromtimestamp] and [strftime] of [formatTime], in one step. *)
  strftime_local : value -> value -> M string
}.

(** Modelled from the spec: [twisted.python.reflect.safe_repr], a
    representation function that itself never raises, falling back to a
    placeholder on failure; its handler is a bare [except:]. *)
Definition safe_repr `{Externals} (v : value) : M string :=
  try_bare (py_repr v) (fun e => ret (unrepresentable v e)).

Definition nl : string := String "010"%char "".
Definition tab : string := String "009"%char "".

Section Format.
Context `{Externals}.

(** *** The parts of [string.Formatter] written in Python *)

(** [getattr(v, name)] *)
Definition py_getattr (v : value) (name : string) : M value :=
  match v with
  | VObj _ attrs _ _ _ =>
      match dict_get attrs name with
      | Some x => ret x
      | None => builtin_getattr v name
      end
  | _ => builtin_getattr v name
  end.

(** [d[k]] on a dictionary *)
Definition dict_item (d : dict) (k : string) : M value :=
  match dict_get d k with
  | Some v => ret v
  | None => raise (KeyError k)
  end.

(** [Formatter.get_value(key, (), kwargs)] *)
Definition get_value (key : index) (kwargs : string -> M value) : M value :=
  match key with
  | IInt _ => raise (IndexError "tuple index out of range")
  | IStr k => kwargs k
  end.

Fixpoint resolve (obj : value) (rest : list accessor) : M value :=
  match rest with
  | [] => ret obj
  | Attr a :: rest' => let! obj := py_getattr obj a in resolve obj rest'
  | Item i :: rest' => let! obj := py_getitem obj i in resolve obj rest'
  end.

Definition pending {A} (err : option exn) (a : A) : M A :=
  match err with
  | None => ret a
  | Some e => raise e
  end.

(** [Formatter.get_field(field_name, (), kwargs)[0]] *)
Definition get_field (field_name : string) (kwargs : string -> M value) : M value :=
  let! (first, (rest, err)) := lift (field_name_split field_name) in
  let! obj := get_value first kwargs in
  let! obj := resolve obj rest in
  pending err obj.

(** [ascii] of a representation: code points above 127 are escaped. *)
Fixpoint ascii_only (s : string) : string :=
  match s with
  | EmptyString => ""
  | String c s' =>
      (if (N_of_ascii c <? 128)%N then String c "" else hex_escape c) +:+ ascii_only s'
  end.

(** [Formatter.convert_field] *)
Definition convert_field (v : value) (conversion : option string) : M value :=
  match conversion with
  | None => ret v
  | Some c =>
      if decide (c = "s") then let! s := py_str v in ret (VStr s)
      else if decide (c = "r") then let! s := py_repr v in ret (VStr s)
      else if decide (c = "a") then let! s := py_repr v in ret (VStr (ascii_only s))
      else raise (ValueError ("Unknown conversion specifier " +:+ c))
  end.

(** [Formatter.format_field], that is [format(v, spec)] *)
Definition format_field (v : value) (spec : string) : M string :=
  if decide (spec = "") then py_format v else format_with_spec v spec.

Fixpoint isdigit_chars (s : string) : bool :=
  match s with
  | EmptyString => true
  | String c s' => (48 <=? N_of_ascii c)%N && (N_of_ascii c <=? 57)%N && isdigit_chars s'
  end.

(** [str.isdigit] *)
Definition isdigit (s : string) : bool :=
  negb (bool_decide (s = "")) && isdigit_chars s.

(** The handling of automatic field numbering in [Formatter._vformat]:
    [auto] is [None] for [False]. *)
Definition number_field (field_name : string) (auto : option nat)
  : M (string * option nat) :=
  if decide (field_name = "") then
    match auto with
    | None =>
        raise (ValueError
          "cannot switch from manual field specification to automatic field numbering")
    | Some n => ret (pretty n, Some (S n))
    end
  else if isdigit field_name then
    match auto with
    | Some (S _) =>
        raise (ValueError
          "cannot switch from manual field specification to automatic field numbering")
    | _ => ret (field_name, None)
    end
  else ret (field_name, auto).

(** The loop of [Formatter._vformat]; [expand] is the recursive call that
    expands a format specification. *)
Fixpoint _vformat_loop (expand : option string -> option nat -> M (string * option nat))
    (kwargs : string -> M value) (segs : list segment) (result : string)
    (auto : option nat) : M (string * option nat) :=
  match segs with
  | [] => ret (result, auto)
  | seg :: segs' =>
      let result := result +:+ literalText seg in
      match fieldName seg with
      | None => _vformat_loop expand kwargs segs' result auto
      | Some field_name =>
          let! (field_name, auto) := number_field field_name auto in
          let! obj := get_field field_name kwargs in
          let! obj := convert_field obj (conversion seg) in
          let! (format_spec, auto) := expand (formatSpec seg) auto in
          let! s := format_field obj format_spec in
          _vformat_loop expand kwargs segs' (result +:+ s) auto
      end
  end.

(** [Formatter._vformat]; [depth] is [recursion_depth + 1]. *)
Fixpoint _vformat (depth : nat) (kwargs : string -> M value)
    (format_string : option string) (auto : option nat) : M (string * option nat) :=
  match depth with
  | 0 => raise (ValueError "Max string recursion exceeded")
  | S depth' =>
      match format_string with
      | None => raise (TypeError "expected str, got NoneType")
      | Some format_string =>
          let '(segs, err) := parse format_string in
          let! (result, auto) :=
            _vformat_loop (_vformat depth' kwargs) kwargs segs "" auto in
          pending err (result, auto)
      end
  end.

(** [Formatter.vformat(format_string, (), kwargs)] *)
Definition vformat (format_string : string) (kwargs : string -> M value) : M string :=
  let! (result, _) := _vformat 3 kwargs (Some format_string) (Some 0) in
  ret result.

End Format.

(** ** The module *)

Definition timeFormatRFC3339 : string := "%Y-%m-%dT%H:%M:%S%z".

(** [s.endswith(suffix)] *)
Definition endswith (s suffix : string) : bool :=
  let n := String.length s in
  let m := String.length suffix in
  (m <=? n)%nat && bool_decide (substring (n - m) m s = suffix).

(** [s[:-2]] *)
Definition drop_last2 (s : string) : string :=
  substring 0 (String.length s - 2) s.

(** [s.replace("\n", "\n\t")] *)
Fixpoint indent_continuation (s : string) : string :=
  match s with
  | EmptyString => ""
  | String c s' =>
      if decide (c = "010"%char)
      then String c (String "009"%char (indent_continuation s'))
      else String c (indent_continuation s')
  end.

Section Module_.
Context `{Externals}.

(** [CallMapping(submapping)[key]] *)
Definition CallMapping (submapping : dict) (key : string) : M value :=
  let callit := endswith key "()" in
  let realKey := if callit then drop_last2 key else key in
  let! value := dict_item submapping realKey in
  if callit then py_call value else ret value.

Definition formatWithCall (formatString : string) (mapping : dict) : M string :=
  vformat formatString (CallMapping mapping).

(** [theFormatter.parse(v)]: the argument has to be a text. *)
Definition parse_value (v : value) : M (lazily segment) :=
  match v with
  | VStr s => ret (parse s)
  | _ => raise (TypeError ("expected str, got " +:+ type_name v))
  end.

(** [x or "s"] for a conversion [x] *)
Definition or_s (conversion : option string) : string :=
  match conversion with
  | None => "s"
  | Some c => if decide (c = "") then "s" else c
  end.

(** The body of the loop of [flatFormat]. *)
Definition flatFormat_step (fields : value) (seg : segment)
    (st : KeyFlattener * string) : M (KeyFlattener * string) :=
  let '(keyFlattener, s) := st in
  let s := s +:+ literalText seg in
  let '(key, keyFlattener) :=
    flatKey keyFlattener (fieldName seg) (formatSpec seg) (Some (or_s (conversion seg))) in
  let! value := py_getitem fields (IStr key) in
  let! text := py_str value in
  ret (keyFlattener, s +:+ text).

Fixpoint flatFormat_loop (fields : value) (segs : list segment)
    (st : KeyFlattener * string) : M (KeyFlattener * string) :=
  match segs with
  | [] => ret st
  | seg :: segs' =>
      let! st := flatFormat_step fields seg st in
      flatFormat_loop fields segs' st
  end.

Definition flatFormat (event : dict) : M string :=
  let! fields := dict_item event "log_flattened" in
  let! format := dict_item event "log_format" in
  let! (segs, err) := parse_value format in
  let! (_, s) := flatFormat_loop fields segs (newKeyFlattener, "") in
  pending err s.

(** The body of the loop of [flattenEvent]. *)
Definition flattenEvent_step (event : dict) (seg : segment)
    (st : KeyFlattener * dict) : M (KeyFlattener * dict) :=
  let '(keyFlattener, fields) := st in
  let conversion := if decide (conversion seg = Some "r") then "r" else "s" in
  let '(flattenedKey, keyFlattener) :=
    flatKey keyFlattener (fieldName seg) (formatSpec seg) (Some conversion) in
  let '(structuredKey, keyFlattener) :=
    flatKey keyFlattener (fieldName seg) (formatSpec seg) (Some "") in
  if dict_mem flattenedKey fields then ret (keyFlattener, fields)
  else
    match fieldName seg with
    | None => raise (AttributeError "'NoneType' object has no attribute 'endswith'")
    | Some fieldName =>
        let callit := endswith fieldName "()" in
        let fieldName := if callit then drop_last2 fieldName else fieldName in
        let! fieldValue := get_field fieldName (dict_item event) in
        let conversionFunction : value -> M value :=
          if decide (conversion = "s") then fun x => let! s := py_str x in ret (VStr s)
          else if decide (conversion = "r") then fun x => let! s := py_repr x in ret (VStr s)
          else fun x => ret x in
        let! fieldValue := if callit then py_call fieldValue else ret fieldValue in
        let! flattenedValue := conversionFunction fieldValue in
        ret (keyFlattener,
             dict_set (dict_set fields flattenedKey flattenedValue) structuredKey fieldValue)
    end.

Fixpoint flattenEvent_loop (event : dict) (segs : list segment)
    (st : KeyFlattener * dict) : M (KeyFlattener * dict) :=
  match segs with
  | [] => ret st
  | seg :: segs' =>
      let! st := flattenEvent_step event seg st in
      flattenEvent_loop event segs' st
  end.

(** [flattenEvent(event)]; the result is the event as the call leaves it. *)
Definition flattenEvent (event : dict) : M dict :=
  if negb (dict_mem "log_format" event) then ret event
  else
    let! format := dict_item event "log_format" in
    let! (segs, err) := parse_value format in
    let! (_, fields) := flattenEvent_loop event segs (newKeyFlattener, []) in
    let! _ := pending err tt in
    ret (dict_set event "log_flattened" (VDict fields)).

(** [[[literalText, fieldName, formatSpec, conversion]] = items] *)
Definition unpack_single (items : lazily segment) : M segment :=
  match items with
  | ([], None) => raise (ValueError "not enough values to unpack (expected 1, got 0)")
  | ([], Some e) => raise e
  | ([seg], None) => ret seg
  | ([seg], Some e) => raise e
  | (_ :: _ :: _, _) => raise (ValueError "too many values to unpack (expected 1)")
  end.

(** [extractField(field, event)]: the value returned and the event as the
    call leaves it. *)
Definition extractField (field : string) (event : dict) : M (value * dict) :=
  let keyFlattener := newKeyFlattener in
  let! seg := unpack_single (parse ("{" +:+ field +:+ "}")) in
  let '(key, _) := flatKey keyFlattener (fieldName seg) (formatSpec seg) (conversion seg) in
  let! event := if negb (dict_mem "log_flattened" event) then flattenEvent event
                else ret event in
  let! flattened := dict_item event "log_flattened" in
  let! v := py_getitem flattened (IStr key) in
  ret (v, event).

Fixpoint recoverable (items : dict) : M (list string) :=
  match items with
  | [] => ret []
  | (key, value) :: items' =>
      let! v := safe_repr value in
      let! rest := recoverable items' in
      ret ((repr_str key +:+ " = " +:+ v) :: rest)
  end.

Definition formatUnformattableEvent (event : dict) (error : exn) : M string :=
  try_except
    (let! ev := py_repr (VDict event) in
     let! er := str_exn error in
     ret ("Unable to format event " +:+ ev +:+ ": " +:+ er))
    (fun raised =>
       let failure := failure_text raised in
       let! items := recoverable event in
       let text := join ", " items in
       ret ("MESSAGE LOST: unformattable object logged: " +:+ repr_exn error +:+ nl +:+
            "Recoverable data: " +:+ text +:+ nl +:+
            "Exception during formatting:" +:+ nl +:+ failure)).

(** The [try] block of [formatEvent]. *)
Definition formatEvent_try (event : dict) : M string :=
  if dict_mem "log_flattened" event then flatFormat event
  else
    match dict_get_default event "log_format" VNone with
    | VNone => ret ""
    | VBytes b =>
        let! format := lift (decode_utf8 b) in
        formatWithCall format event
    | VStr format => formatWithCall format event
    | format =>
        let! r := py_repr format in
        raise (TypeError ("Log format must be unicode or bytes, not " +:+ r))
    end.

Definition formatEvent (event : dict) : M string :=
  try_except (formatEvent_try event) (fun e => formatUnformattableEvent event e).

(** [formatTime(when, timeFormat, default)]; an argument that the caller
    leaves out is [None] here and takes its declared default. *)
Definition formatTime (when : value) (timeFormat default_ : option value) : M value :=
  let timeFormat := default (VStr timeFormatRFC3339) timeFormat in
  let default_ := default (VStr "-") default_ in
  match timeFormat, when with
  | VNone, _ | _, VNone => ret default_
  | _, _ => let! s := strftime_local when timeFormat in ret (VStr s)
  end.

(** [formatEventAsClassicLogText(event, formatTime)]: a text, or [None]. *)
Definition formatEventAsClassicLogText (event : dict) (formatTime : value -> M value)
  : M (option string) :=
  let! eventText := formatEvent event in
  if decide (eventText = "") then ret None
  else
    let eventText := indent_continuation eventText in
    let! timeStamp := formatTime (dict_get_default event "log_time" VNone) in
    let system := dict_get_default event "log_system" VNone in
    let! system :=
      match system with
      | VNone =>
          let level := dict_get_default event "log_level" VNone in
          let! levelName :=
            match level with
            | VNone => ret (VStr "-")
            | _ => py_getattr level "name"
            end in
          let! namespace := py_format (dict_get_default event "log_namespace" (VStr "-")) in
          let! level := py_format levelName in
          ret (namespace +:+ "#" +:+ level)
      | _ => try_except (py_str system) (fun _ => ret "UNFORMATTABLE")
      end in
    let! timeStamp := py_format timeStamp in
    ret (Some (timeStamp +:+ " [" +:+ system +:+ "] " +:+ eventText +:+ nl)).

(** [formatEventAsClassicLogText(event)] with the default time formatter. *)
Definition formatEventAsClassicLogText_default (event : dict) : M (option string) :=
  formatEventAsClassicLogText event (fun when => formatTime when None None).

End Module_.

(** ** An instance of the collaborators, after CPython 3

    [formatter_parser] and [formatter_field_name_split] follow
    [Objects/stringlib/unicode_format.h]. *)

Module CPython.

(** The literal text up to the first brace: the text before it, and the brace
    with what follows it, if a brace was found. *)
Fixpoint scan_literal (s : string) : string * option (ascii * string) :=
  match s with
  | EmptyString => ("", None)
  | String c s' =>
      if decide (c = "{"%char) then ("", Some (c, s'))
      else if decide (c = "}"%char) then ("", Some (c, s'))
      else let '(lit, r) := scan_literal s' in (String c lit, r)
  end.

(** The field name of [parse_field]: it ends at [}], [:] or [!] outside of
    brackets.  The result is the name, the terminator and the rest. *)
Fixpoint scan_name (in_bracket : bool) (s : string)
  : result (string * ascii * string) :=
  match s with
  | EmptyString => Raise (ValueError "expected '}' before end of string")
  | String c s' =>
      let continue_ (b : bool) :=
        match scan_name b s' with
        | Ok (name, t, r) => Ok (String c name, t, r)
        | Raise e => Raise e
        end in
      if in_bracket then continue_ (negb (bool_decide (c = "]"%char)))
      else if decide (c = "{"%char) then Raise (ValueError "unexpected '{' in field name")
      else if decide (c = "["%char) then continue_ true
      else if decide (c = "}"%char) then Ok ("", c, s')
      else if decide (c = ":"%char) then Ok ("", c, s')
      else if decide (c = "!"%char) then Ok ("", c, s')
      else continue_ false
  end.

(** The format specification: up to the brace that closes the field, braces
    inside it being counted; [count] is the number of open braces less one. *)
Fixpoint scan_spec (count : nat) (s : string) : result (string * string) :=
  match s with
  | EmptyString => Raise (ValueError "unmatched '{' in format spec")
  | String c s' =>
      let continue_ (n : nat) :=
        match scan_spec n s' with
        | Ok (spec, r) => Ok (String c spec, r)
        | Raise e => Raise e
        end in
      if decide (c = "{"%char) then continue_ (S count)
      else if decide (c = "}"%char) then
        match count with
        | 0 => Ok ("", s')
        | S n => continue_ n
        end
      else continue_ count
  end.

(** [parse_field]: name, specification, conversion, and the rest. *)
Definition parse_field (s : string)
  : result (string * string * option string * string) :=
  match scan_name false s with
  | Raise e => Raise e
  | Ok (name, t, r) =>
      if decide (t = "}"%char) then Ok (name, "", None, r)
      else if decide (t = "!"%char) then
        match r with
        | EmptyString =>
            Raise (ValueError "end of string while looking for conversion specifier")
        | String conv r1 =>
            let spec_from (r2 : string) :=
              match scan_spec 0 r2 with
              | Ok (spec, r3) => Ok (name, spec, Some (String conv ""), r3)
              | Raise e => Raise e
              end in
            match r1 with
            | EmptyString => spec_from ""
            | String c r2 =>
                if decide (c = "}"%char) then Ok (name, "", Some (String conv ""), r2)
                else if decide (c = ":"%char) then spec_from r2
                else Raise (ValueError "expected ':' after conversion specifier")
            end
        end
      else
        match scan_spec 0 r with
        | Ok (spec, r') => Ok (name, spec, None, r')
        | Raise e => Raise e
        end
  end.

Definition literal_only (lit : string) : segment :=
  Segment lit None None None.

(** [MarkupIterator_next], repeated until the input is used up. *)
Fixpoint formatter_parser (fuel : nat) (s : string) : lazily segment :=
  match fuel with
  | 0 => ([], None)
  | S fuel' =>
      if decide (s = "") then ([], None)
      else
        match scan_literal s with
        | (lit, None) => ([literal_only lit], None)
        | (lit, Some (c, r)) =>
            let cons (seg : segment) (r' : string) :=
              let '(segs, err) := formatter_parser fuel' r' in (seg :: segs, err) in
            match r with
            | EmptyString =>
                if decide (c = "}"%char)
                then ([], Some (ValueError "Single '}' encountered in format string"))
                else ([], Some (ValueError "Single '{' encountered in format string"))
            | String c' r' =>
                if decide (c' = c) then cons (literal_only (lit +:+ String c "")) r'
                else if decide (c = "}"%char)
                then ([], Some (ValueError "Single '}' encountered in format string"))
                else
                  match parse_field r with
                  | Ok (name, spec, conv, r'') =>
                      cons (Segment lit (Some name) (Some spec) conv) r''
                  | Raise e => ([], Some e)
                  end
            end
        end
  end.

Definition parse (s : string) : lazily segment :=
  formatter_parser (String.length s) s.

Fixpoint digits_value (acc : N) (s : string) : N :=
  match s with
  | EmptyString => acc
  | String c s' => digits_value (acc * 10 + (N_of_ascii c - 48)) s'
  end.

(** [get_integer] followed by the choice between an index and a text. *)
Definition to_index (s : string) : result index :=
  if isdigit s then
    let n := digits_value 0 s in
    if (n <=? 9223372036854775807)%N then Ok (IInt (N.to_nat n))
    else Raise (ValueError "Too many decimal digits in format string")
  else Ok (IStr s).

(** The text up to the first [.] or [[]. *)
Fixpoint scan_first (s : string) : string * string :=
  match s with
  | EmptyString => ("", "")
  | String c s' =>
      if decide (c = "."%char) then ("", s)
      else if decide (c = "["%char) then ("", s)
      else let '(a, r) := scan_first s' in (String c a, r)
  end.

(** The text up to the first []], which is dropped. *)
Fixpoint scan_item (s : string) : option (string * string) :=
  match s with
  | EmptyString => None
  | String c s' =>
      if decide (c = "]"%char) then Some ("", s')
      else match scan_item s' with
           | Some (a, r) => Some (String c a, r)
           | None => None
           end
  end.

(** [FieldNameIterator_next], repeated until the input is used up. *)
Fixpoint field_name_rest (fuel : nat) (s : string) : lazily accessor :=
  match fuel with
  | 0 => ([], None)
  | S fuel' =>
      match s with
      | EmptyString => ([], None)
      | String c s' =>
          let cons (a : accessor) (r : string) :=
            let '(l, err) := field_name_rest fuel' r in (a :: l, err) in
          if decide (c = "."%char) then
            let '(name, r) := scan_first s' in
            if decide (name = "")
            then ([], Some (ValueError "Empty attribute in format string"))
            else cons (Attr name) r
          else if decide (c = "["%char) then
            match scan_item s' with
            | None => ([], Some (ValueError "Missing ']' in format string"))
            | Some (name, r) =>
                match to_index name with
                | Raise e => ([], Some e)
                | Ok i =>
                    if decide (name = "")
                    then ([], Some (ValueError "Empty attribute in format string"))
                    else cons (Item i) r
                end
            end
          else ([], Some (ValueError
                 "Only '.' or '[' may follow ']' in format field specifier"))
      end
  end.

Definition field_name_split (s : string) : result (index * lazily accessor) :=
  let '(first, r) := scan_first s in
  match to_index first with
  | Raise e => Raise e
  | Ok i => Ok (i, field_name_rest (String.length r) r)
  end.

(** Attributes of built-in types are outside of this instance: only
    instance attributes are found. *)
Definition builtin_getattr (v : value) (name : string) : M value :=
  raise (AttributeError
    ("'" +:+ type_name v +:+ "' object has no attribute '" +:+ name +:+ "'")).

Fixpoint spaces (n : nat) : string :=
  match n with
  | 0 => ""
  | S n' => String " " (spaces n')
  end.

(** [format(v, spec)] for a non-empty [spec].  Types without a [__format__]
    of their own reject it.  For integers and texts this instance covers a
    plain width (a number not starting with 0), which pads integers on
    the left and texts on the right; other specifications are left out. *)
Definition format_with_spec (v : value) (spec : string) : M string :=
  let width :=
    match spec with
    | String c _ =>
        if isdigit spec && negb (bool_decide (c = "0"%char))
        then Some (N.to_nat (digits_value 0 spec)) else None
    | EmptyString => None
    end in
  match v, width with
  | VInt z, Some w =>
      let s := pretty z in ret (spaces (w - String.length s) +:+ s)
  | VStr s, Some w => ret (s +:+ spaces (w - String.length s))
  | VInt _, None | VStr _, None => raise (ValueError "Invalid format specifier")
  | _, _ =>
      raise (TypeError
        ("unsupported format string passed to " +:+ type_name v +:+ ".__format__"))
  end.

(** UTF-8 of the code points below 256: one byte below 128, two bytes with
    lead [0xC2] or [0xC3] above. *)
Fixpoint decode_utf8 (b : string) : result string :=
  match b with
  | EmptyString => Ok ""
  | String c b' =>
      let n := N_of_ascii c in
      if (n <? 128)%N then
        match decode_utf8 b' with
        | Ok s => Ok (String c s)
        | Raise e => Raise e
        end
      else
        match b' with
        | String c2 b'' =>
            let m := N_of_ascii c2 in
            if ((n =? 194) || (n =? 195))%N && (128 <=? m)%N && (m <? 192)%N then
              match decode_utf8 b'' with
              | Ok s => Ok (String (ascii_of_N ((n - 192) * 64 + (m - 128))) s)
              | Raise e => Raise e
              end
            else Raise (Exn "UnicodeDecodeError" (AStr "'utf-8' codec can't decode byte"))
        | EmptyString =>
            Raise (Exn "UnicodeDecodeError" (AStr "'utf-8' codec can't decode byte"))
        end
  end.

(** The traceback of a failure and the address of an object are not part of
    the model; the texts keep what identifies the exception. *)
Definition failure_text (e : exn) : string :=
  "[Failure instance: Traceback: " +:+ repr_exn e +:+ "]".

Definition unrepresentable (v : value) (e : exn) : string :=
  "<" +:+ type_name v +:+ " instance with repr error: " +:+ repr_exn e +:+ ">".

(** Local time is not part of the model: the examples only format an absent
    time. *)
Definition strftime_local (when timeFormat : value) : M string :=
  raise (TypeError "a float is required").

End CPython.

#[export] Instance cpython : Externals := {|
  parse := CPython.parse;
  field_name_split := CPython.field_name_split;
  builtin_getattr := CPython.builtin_getattr;
  format_with_spec := CPython.format_with_spec;
  decode_utf8 := CPython.decode_utf8;
  failure_text := CPython.failure_text;
  unrepresentable := CPython.unrepresentable;
  strftime_local := CPython.strftime_local
|}.

(** The world in which no cell has been written. *)
Definition w0 : world := World ∅.

(** ** Events used as examples *)

Module Examples.

(** [{"log_format": "{x} {x} {x!r}", "x": 5}] *)
Definition repeated : dict := [("log_format", VStr "{x} {x} {x!r}"); ("x", VInt 5)].

(** [{"log_format": "{x!a}", "x": 5}] *)
Definition ascii_conversion : dict := [("log_format", VStr "{x!a}"); ("x", VInt 5)].

Definition ascii_conversion_flattened : dict :=
  ascii_conversion ++
  [("log_flattened", VDict [("x!s:", VStr "5"); ("x!:", VInt 5)])].

(** [{"log_format": "{x:3}", "x": 5}] *)
Definition padded : dict := [("log_format", VStr "{x:3}"); ("x", VInt 5)].

Definition padded_flattened : dict :=
  padded ++ [("log_flattened", VDict [("x!s:3", VStr "5"); ("x!:3", VInt 5)])].

(** [{"log_format": "{f()} {f()}", "f": f}] where [f] returns 0, 1, 2, ... *)
Definition counted : dict := [("log_format", VStr "{f()} {f()}"); ("f", VNext 0)].

(** [{"function": lambda: 7}] and the same event with a template. *)
Definition callable_only : dict := [("function", VLambda (VInt 7))].

Definition callable_logged : dict :=
  [("log_format", VStr "{function()}"); ("function", VLambda (VInt 7))].

(** An event that carries an empty [log_flattened], and the same event with
    one more field. *)
Definition unflattened_key : dict :=
  [("log_format", VStr "{x}"); ("log_flattened", VDict [])].


(** [{"log_format": "Hello!", "log_system": None}] *)
Definition system_none : dict := [("log_format", VStr "Hello!"); ("log_system", VNone)].

(** [{"log_format": "Hello!", "log_namespace": "ns", "log_level": info}] *)
Definition info : value :=
  VObj "NamedConstant" [("name", VStr "info")] (Returns "<LogLevel=info>")
       (Returns "<LogLevel=info>") None.

Definition hello : dict :=
  [("log_format", VStr "Hello!"); ("log_namespace", VStr "ns"); ("log_level", info)].

(** [{"log_format": "Hello {x}!", "x": 5}]: the template ends in a literal. *)
Definition trailing_literal : dict := [("log_format", VStr "Hello {x}!"); ("x", VInt 5)].

(** [{"log_format": "{o.m()}", "o": o}] where [o.m] is [lambda: 7]. *)
Definition call_after_attribute : dict :=
  [("log_format", VStr "{o.m()}");
   ("o", VObj "C" [("m", VLambda (VInt 7))] (Returns "c") (Returns "c") None)].


(** [{"log_format": "{x}", "x": x}] where the class of [x] defines
    [__str__] to return "S" and [__format__] to return "F". *)
Definition formatted : dict :=
  [("log_format", VStr "{x}");
   ("x", VObj "C" [] (Returns "S") (Returns "R") (Some (Returns "F")))].

(** [{"log_format": b"{x}", "x": 5}] *)
Definition bytes_template : dict := [("log_format", VBytes "{x}"); ("x", VInt 5)].

End Examples.

(** ** Notions used in the statements *)

(** The key of the [n]-th call for the canonical key [c]. *)
Definition key_of (c : string) (n : nat) : string :=
  if decide (n ≠ 1) then c +:+ "/" +:+ pretty n else c.

Definition count (self : KeyFlattener) (c : string) : nat :=
  default 0 (keys self !! c).

(** [n] successive calls with the same arguments: the keys returned. *)
Fixpoint flatKey_calls (n : nat) (self : KeyFlattener)
    (fieldName formatSpec conversion : option string) : list string :=
  match n with
  | 0 => []
  | S n' =>
      let '(key, self') := flatKey self fieldName formatSpec conversion in
      key :: flatKey_calls n' self' fieldName formatSpec conversion
  end.

(** The characters 0 to 9. *)
Definition is_digit (c : ascii) : Prop :=
  (48 <= N_of_ascii c <= 57)%N.

(** A canonical key with an empty format specification ends with a colon. *)
Definition ends_colon (c : string) : Prop := exists p, c = p +:+ ":".

(** The conversions that the flattener stores as they are. *)
Definition known_conversion (c : option string) : Prop :=
  c = None \/ c = Some "s" \/ c = Some "r".

Section Statements.
Context `{Externals}.

(** A field name that the live rendering and the flattener resolve alike:
    it is neither empty nor a number, and the call suffix, if there is one,
    follows a plain name. *)
Definition resolves_alike (fn : string) : Prop :=
  fn ≠ "" /\ isdigit fn = false /\
  if endswith fn "()" then
    field_name_split fn = Ok (IStr fn, ([], None)) /\
    field_name_split (drop_last2 fn) = Ok (IStr (drop_last2 fn), ([], None))
  else
    forall k rest, field_name_split fn = Ok (IStr k, rest) -> endswith k "()" = false.

(** A reference with a field name, no format specification and a conversion
    that is absent, [s] or [r]. *)
Definition plain_reference (seg : segment) : Prop :=
  exists fn, fieldName seg = Some fn /\ resolves_alike fn /\
             formatSpec seg = Some "" /\ known_conversion (conversion seg).

Definition conversion_of (c : option string) : string :=
  if decide (c = Some "r") then "r" else "s".

(** [str] or [repr] of a field, as its conversion asks. *)
Definition converted (conv : option string) (v : value) : M string :=
  if decide (conv = Some "r") then py_repr v else py_str v.

(** The value of a field: what its name resolves to in the event and, with
    the call suffix, what calling that returns. *)
Definition field_value (event : dict) (fn : string) : M value :=
  let callit := endswith fn "()" in
  let! v := get_field (if callit then drop_last2 fn else fn) (dict_item event) in
  if callit then py_call v else ret v.

(** A value that [format] with the empty format specification renders as
    [str] does: a value of a built-in type, or an object whose class leaves
    [__format__] as it inherits it. *)
Definition formats_as_str (v : value) : Prop :=
  forall w, py_format v w = py_str v w.

(** A reference that, if it has no conversion, stands for a value that
    [format] renders as [str] does. *)
Definition formats_by_str (event : dict) (seg : segment) : Prop :=
  conversion seg = None ->
  forall fn v w w',
    fieldName seg = Some fn -> field_value event fn w = (Ok v, w') -> formats_as_str v.

(** What one reference contributes: the value of the field and its text. *)
Definition field_text (event : dict) (fn : string) (conv : option string)
  : M (value * string) :=
  let callit := endswith fn "()" in
  let! v := get_field (if callit then drop_last2 fn else fn) (dict_item event) in
  let! v := if callit then py_call v else ret v in
  let! t := converted conv v in
  ret (v, t).

End Statements.

(** No key that later calls can return is among the fields. *)
Definition keys_stale (kf : KeyFlattener) (fields : dict) : Prop :=
  forall c n, ends_colon c -> count kf c < n -> dict_mem (key_of c n) fields = false.

(** Two flatteners that have counted the stringified keys alike. *)
Definition same_counts (kf1 kf2 : KeyFlattener) : Prop :=
  forall fn cv, cv = "s" \/ cv = "r" ->
    count kf1 (canonicalKey (Some fn) (Some "") (Some cv)) =
    count kf2 (canonicalKey (Some fn) (Some "") (Some cv)).

(** The state of the flattener after a reference has been processed. *)
Definition after_reference (kf : KeyFlattener) (fn : string) (conv : option string)
  : KeyFlattener :=
  let cF := canonicalKey (Some fn) (Some "") (Some (conversion_of conv)) in
  let cS := canonicalKey (Some fn) (Some "") (Some "") in
  {| keys := <[cS := S (count kf cS)]> (<[cF := S (count kf cF)]> (keys kf)) |}.

Definition flattenedKey_of (kf : KeyFlattener) (fn : string) (conv : option string) : string :=
  let cF := canonicalKey (Some fn) (Some "") (Some (conversion_of conv)) in
  key_of cF (S (count kf cF)).

Definition structuredKey_of (kf : KeyFlattener) (fn : string) : string :=
  let cS := canonicalKey (Some fn) (Some "") (Some "") in
  key_of cS (S (count kf cS)).

(** Every entry of the first dictionary is an entry of the second. *)
Definition kept (fields fields' : dict) : Prop :=
  forall k v, dict_get fields k = Some v -> dict_get fields' k = Some v.




(** The namespace of an event as the specification describes it: the text
    under [log_namespace], or "-" when there is none. *)
Definition namespace_text (event : dict) : option string :=
  match dict_get event "log_namespace" with
  | None => Some "-"
  | Some (VStr namespace) => Some namespace
  | Some _ => None
  end.

(** The name of the level of an event: the text that the level exposes as
    its [name], or "-" when no level is set. *)
Definition level_name (event : dict) : option string :=
  match dict_get event "log_level" with
  | None | Some VNone => Some "-"
  | Some (VObj _ attrs _ _ _) =>
      match dict_get attrs "name" with
      | Some (VStr name) => Some name
      | _ => None
      end
  | Some _ => None
  end.

(** ["{timeStamp} [{system}] {eventText}\n"], continuation lines indented. *)
Definition classic_line (timeStamp system eventText : string) : string :=
  timeStamp +:+ " [" +:+ system +:+ "] " +:+ indent_continuation eventText +:+ nl.

(** ** Notions used in the further properties *)

(** The arguments of one call of [flatKey]:
    [(fieldName, formatSpec, conversion)]. *)
Abbreviation call := (option string * option string * option string)%type.

Definition canonical_of (c : call) : string :=
  canonicalKey c.1.1 c.1.2 c.2.

(** The keys that one [KeyFlattener] returns for a sequence of calls. *)
Fixpoint flatKey_run (self : KeyFlattener) (calls : list call) : list string :=
  match calls with
  | [] => []
  | (f, s, c) :: calls' =>
      let '(key, self') := flatKey self f s c in
      key :: flatKey_run self' calls'
  end.

(** How many of the calls have the canonical key [c]. *)
Definition earlier (c : string) (calls : list call) : nat :=
  List.length (filter (fun x => canonical_of x = c) calls).

(** A format specification that is absent or empty. *)
Definition no_spec (formatSpec : option string) : Prop :=
  formatSpec = None \/ formatSpec = Some "".

(** The literal texts of the items of a template, one after the other. *)
Fixpoint literals (segs : list segment) : string :=
  match segs with
  | [] => ""
  | seg :: segs' => literalText seg +:+ literals segs'
  end.

(** A key under which the flattener stores a text: the canonical key of a
    field name with the conversion [s] or [r] and no format specification,
    with or without an occurrence suffix. *)
Definition stringified_key (k : string) : Prop :=
  exists fn cv n, (cv = "s" \/ cv = "r") /\
                  k = key_of (canonicalKey (Some fn) (Some "") (Some cv)) n.

(** The two calls of [flatKey] that [flattenEvent] makes for each item of a
    template. *)
Definition flatKey_calls_of (segs : list segment) : list call :=
  flat_map (fun seg =>
              [(fieldName seg, formatSpec seg, Some (conversion_of (conversion seg)));
               (fieldName seg, formatSpec seg, Some "")]) segs.

(** The two values stored for each reference: the text, then the value. *)
Definition entries_of (vts : list (value * string)) : list value :=
  flat_map (fun vt => [VStr vt.2; vt.1]) vts.

Section Further_statements.
Context `{Externals}.

(** The first attempt of [formatUnformattableEvent]. *)
Definition unable_text (event : dict) (error : exn) : M string :=
  let! ev := py_repr (VDict event) in
  let! er := str_exn error in
  ret ("Unable to format event " +:+ ev +:+ ": " +:+ er).

(** The second attempt of [formatUnformattableEvent], for the exception
    [raised] by the first. *)
Definition message_lost (event : dict) (error raised : exn) : M string :=
  let! items := recoverable event in
  ret ("MESSAGE LOST: unformattable object logged: " +:+ repr_exn error +:+ nl +:+
       "Recoverable data: " +:+ join ", " items +:+ nl +:+
       "Exception during formatting:" +:+ nl +:+ failure_text raised).

(** The references of a template resolved one after the other, from one
    world to the next: the value and the text of each. *)
Inductive resolved (event : dict)
  : list segment -> world -> list (value * string) -> world -> Prop :=
| resolved_nil w : resolved event [] w [] w
| resolved_cons seg segs fn v t vts w w1 w2 :
    fieldName seg = Some fn ->
    field_text event fn (conversion seg) w = (Ok (v, t), w1) ->
    resolved event segs w1 vts w2 ->
    resolved event (seg :: segs) w ((v, t) :: vts) w2.

(** A reference that does not read the entry [log_flattened] of the event:
    the first component of its field name is another key. *)
Definition avoids_snapshot (seg : segment) : Prop :=
  forall fn first rest,
    fieldName seg = Some fn ->
    field_name_split (if endswith fn "()" then drop_last2 fn else fn)
      = Ok (IStr first, rest) ->
    first ≠ "log_flattened".

End Further_statements.

(** * Properties *)

(** ** The monad *)

Lemma bind_ok {A B} (m : M A) (k : A -> M B) w a w' :
  m w = (Ok a, w') -> bind m k w = k a w'.
Proof. intros Hm. unfold bind. by rewrite Hm. Qed.

Lemma bind_raise {A B} (m : M A) (k : A -> M B) w e w' :
  m w = (Raise e, w') -> bind m k w = (Raise e, w').
Proof. intros Hm. unfold bind. by rewrite Hm. Qed.

Lemma bind_ok_inv {A B} (m : M A) (k : A -> M B) w b w2 :
  bind m k w = (Ok b, w2) ->
  exists a w1, m w = (Ok a, w1) /\ k a w1 = (Ok b, w2).
Proof.
  unfold bind. destruct (m w) as [[a|e] w1]; [eauto | discriminate].
Qed.

Lemma pending_ok_inv {A} (err : option exn) (a b : A) w w' :
  pending err a w = (Ok b, w') -> err = None /\ b = a /\ w' = w.
Proof.
  destruct err; cbn; [discriminate|]. intros [= <- <-]. done.
Qed.

Lemma bind_ret_l {A B} (a : A) (k : A -> M B) w : bind (ret a) k w = k a w.
Proof. reflexivity. Qed.

Lemma bind_assoc {A B C} (m : M A) (f : A -> M B) (g : B -> M C) w :
  bind (bind m f) g w = bind m (fun x => bind (f x) g) w.
Proof. unfold bind. by destruct (m w) as [[a|e] w1]. Qed.

Lemma bind_ext {A B} (m : M A) (f g : A -> M B) w :
  (forall a w', f a w' = g a w') -> bind m f w = bind m g w.
Proof. intros Hfg. unfold bind. destruct (m w) as [[a|e] w1]; [apply Hfg | done]. Qed.

Lemma bind_ext_run {A B} (m : M A) (f g : A -> M B) w :
  (forall a w', m w = (Ok a, w') -> f a w' = g a w') -> bind m f w = bind m g w.
Proof. intros Hfg. unfold bind. destruct (m w) as [[a|e] w1]; [by apply Hfg | done]. Qed.

Lemma bind_ext_l {A B} (m m' : M A) (k : A -> M B) w :
  m w = m' w -> bind m k w = bind m' k w.
Proof. intros Hm. unfold bind. by rewrite Hm. Qed.

(** Decide the comparisons of literal texts and of literal conversions. *)
Ltac decide_texts :=
  repeat first [rewrite decide_True by done | rewrite decide_False by done].

(** Bring a computation that runs in a world into the form of one bind. *)
Ltac mnorm :=
  repeat first [rewrite bind_assoc | rewrite bind_ret_l]; cbv beta iota.

(** ** The formatter never raises an [Exception] *)

Section Never_raises.
Context `{Externals}.

Lemma safe_repr_total v w : exists s w', safe_repr v w = (Ok s, w').
Proof.
  unfold safe_repr, try_bare.
  destruct (py_repr v w) as [[s|e] w']; cbn; eauto.
Qed.

Lemma recoverable_total items w :
  exists l w', recoverable items w = (Ok l, w').
Proof.
  revert w. induction items as [|[key v] items IH]; intros w; cbn.
  - by exists [], w.
  - destruct (safe_repr_total v w) as (s & w1 & Hs).
    destruct (IH w1) as (l & w2 & Hl).
    exists ((repr_str key +:+ " = " +:+ s) :: l), w2.
    rewrite (bind_ok _ _ _ _ _ Hs), (bind_ok _ _ _ _ _ Hl). done.
Qed.





End Never_raises.



Section Absent_values.
Context `{Externals}.

(** ** The empty event *)

(** C10. [formatEvent] of the empty event is the empty text, and
    [formatEventAsClassicLogText] of the empty event is [None], whatever the
    time formatter. *)
Theorem empty_event (formatTime_ : value -> M value) (w : world) :
  formatEvent [] w = (Ok "", w) /\
  formatEventAsClassicLogText [] formatTime_ w = (Ok None, w).
Proof. split; reflexivity. Qed.

(** ** Time stamps *)

(** C9. [formatTime] returns [default] when the time or the pattern is
    [None], whatever the other arguments; the fallback it returns when no
    [default] is passed is "-", and the pattern it uses when none is passed
    is the RFC 3339 one. *)
Theorem formatTime_absent (when pattern dflt : value) (w : world) :
  when = VNone \/ pattern = VNone ->
  formatTime when (Some pattern) (Some dflt) w = (Ok dflt, w) /\
  formatTime when (Some pattern) None w = (Ok (VStr "-"), w) /\
  forall when' d,
    formatTime when' None d = formatTime when' (Some (VStr "%Y-%m-%dT%H:%M:%S%z")) d.
Proof.
  intros Habsent. split; [|split].
  - destruct Habsent as [-> | ->]; [by destruct pattern | done].
  - destruct Habsent as [-> | ->]; [by destruct pattern | done].
  - done.
Qed.

End Absent_values.

Lemma formatTime_absent_witness :
  (VNone = VNone \/ VStr "%Y" = VNone) /\
  formatTime VNone (Some (VStr "%Y")) (Some (VStr "-")) w0 = (Ok (VStr "-"), w0) /\
  formatTime VNone (Some (VStr "%Y")) None w0 = (Ok (VStr "-"), w0) /\
  forall when' d,
    formatTime when' None d = formatTime when' (Some (VStr "%Y-%m-%dT%H:%M:%S%z")) d.
Proof.
  split; [by left|].
  apply (formatTime_absent VNone (VStr "%Y") (VStr "-") w0). by left.
Defined.

(** ** Texts *)

Lemma app_str_cons (x : ascii) (a b : string) :
  String x a +:+ b = String x (a +:+ b).
Proof. reflexivity. Qed.

Lemma length_app_str (a b : string) :
  String.length (a +:+ b) = String.length a + String.length b.
Proof.
  induction a as [|x a IH]; [done|].
  rewrite app_str_cons. cbn [String.length]. by rewrite IH.
Qed.

Lemma app_str_assoc (a b c : string) : (a +:+ b) +:+ c = a +:+ (b +:+ c).
Proof.
  induction a as [|x a IH]; [done|]. rewrite !app_str_cons. by rewrite IH.
Qed.

Lemma app_str_nil_r (a : string) : a +:+ "" = a.
Proof.
  induction a as [|x a IH]; [done|]. rewrite app_str_cons. by rewrite IH.
Qed.

Lemma chars_app (a b : string) :
  list_ascii_of_string (a +:+ b) = list_ascii_of_string a ++ list_ascii_of_string b.
Proof.
  induction a as [|x a IH]; [done|].
  rewrite app_str_cons. cbn [list_ascii_of_string]. by rewrite IH.
Qed.

Lemma chars_inj (a b : string) :
  list_ascii_of_string a = list_ascii_of_string b -> a = b.
Proof.
  intros Hab.
  rewrite <- (string_of_list_ascii_of_string a), <- (string_of_list_ascii_of_string b).
  by rewrite Hab.
Qed.

(** ** Keys *)

Lemma flatKey_eq self f s c :
  flatKey self f s c =
    (key_of (canonicalKey f s c) (S (count self (canonicalKey f s c))),
     {| keys := <[canonicalKey f s c := S (count self (canonicalKey f s c))]> (keys self) |}).
Proof. reflexivity. Qed.

Lemma count_insert (m : gmap string nat) c n c' :
  count {| keys := <[c := n]> m |} c' =
    if decide (c = c') then n else count {| keys := m |} c'.
Proof.
  unfold count; cbn. rewrite lookup_insert. by case_decide.
Qed.

Lemma count_eta self c : count {| keys := keys self |} c = count self c.
Proof. reflexivity. Qed.

Lemma flatKey_calls_from n self f s c :
  flatKey_calls n self f s c =
    key_of (canonicalKey f s c) <$> seq (S (count self (canonicalKey f s c))) n.
Proof.
  revert self. induction n as [|n IH]; intros self; [done|].
  cbn [flatKey_calls]. rewrite flatKey_eq. cbn [seq fmap list_fmap].
  f_equal. rewrite IH, count_insert. by rewrite decide_True.
Qed.

Lemma key_of_inj_same c n m : key_of c n = key_of c m -> n = m.
Proof.
  unfold key_of. intros Heq.
  assert (Hlen : forall k : nat, String.length (c +:+ "/" +:+ pretty k) ≠ String.length c).
  { intros k. rewrite !length_app_str. cbn. lia. }
  repeat case_decide; try lia.
  - apply (inj (String.app c)) in Heq. apply (inj (String.app "/")) in Heq.
    by apply (inj pretty) in Heq.
  - exfalso. apply (Hlen n). by rewrite Heq.
  - exfalso. apply (Hlen m). by rewrite <- Heq.
Qed.

Lemma NoDup_key_of c (l : list nat) : NoDup l -> NoDup (key_of c <$> l).
Proof.
  intros Hl. apply NoDup_fmap_2_strong; [|done].
  intros n m _ _. apply key_of_inj_same.
Qed.

(** C6. Repeated calls of [flatKey] on one [KeyFlattener] with the same
    arguments return the canonical key [fieldName!conversion:formatSpec] the
    first time and that key followed by [/2], [/3], ... afterwards (an absent
    conversion or format specification counting as the empty text); the keys
    are pairwise distinct.  [flatKey] is total: no call raises. *)
Theorem flatKey_repeated (fieldName : string) (formatSpec conversion : option string)
    (n : nat) :
  let canonical :=
    fieldName +:+ "!" +:+ default "" conversion +:+ ":" +:+ default "" formatSpec in
  flatKey_calls n newKeyFlattener (Some fieldName) formatSpec conversion =
    (fun i => if decide (i = 1) then canonical else canonical +:+ "/" +:+ pretty i)
      <$> seq 1 n
  /\ NoDup (flatKey_calls n newKeyFlattener (Some fieldName) formatSpec conversion).
Proof.
  intros canonical. rewrite flatKey_calls_from.
  change (count newKeyFlattener _) with 0.
  change (canonicalKey (Some fieldName) formatSpec conversion) with canonical.
  split.
  - apply list_fmap_ext. intros _ i _. unfold key_of.
    destruct (decide (i = 1)) as [->|Hi]; [done|]. by rewrite decide_True.
  - apply NoDup_key_of, NoDup_seq.
Qed.

(** ** Runs of the module on concrete events *)

Example repeated_live : formatEvent Examples.repeated w0 = (Ok "5 5 5", w0).
Proof. reflexivity. Qed.

Example repeated_flattened :
  flattenEvent Examples.repeated w0 =
    (Ok (Examples.repeated ++
         [("log_flattened",
           VDict [("x!s:", VStr "5"); ("x!:", VInt 5);
                  ("x!s:/2", VStr "5"); ("x!:/2", VInt 5);
                  ("x!r:", VStr "5"); ("x!:/3", VInt 5)])]), w0).
Proof. reflexivity. Qed.

Example hello_classic :
  formatEventAsClassicLogText_default Examples.hello w0 =
    (Ok (Some ("- [ns#info] Hello!" +:+ nl)), w0).
Proof. reflexivity. Qed.

(** A template that ends in a literal is rendered live, but cannot be
    flattened: the last item of [parse] has no field name. *)
Example trailing_literal_not_flattened :
  formatEvent Examples.trailing_literal w0 = (Ok "Hello 5!", w0) /\
  flattenEvent Examples.trailing_literal w0 =
    (Raise (AttributeError "'NoneType' object has no attribute 'endswith'"), w0).
Proof. split; reflexivity. Qed.

(** A call suffix after an attribute is understood by the flattener only. *)
Example call_after_attribute_flattened :
  formatEvent Examples.call_after_attribute w0 =
    (Ok "Unable to format event {'log_format': '{o.m()}', 'o': c}: 'C' object has no attribute 'm()'",
     w0) /\
  (let! e := flattenEvent Examples.call_after_attribute in flatFormat e) w0 = (Ok "7", w0).
Proof. split; reflexivity. Qed.

(** C5 (the code departs from it). After [flattenEvent] of
    [{"log_format": "{x!a}", "x": 5}] the text is stored under ["x!s:"], yet
    [flatFormat] looks up ["x!a:"] and raises [KeyError], although the live
    rendering of the same event is ["5"]. *)
Theorem flatFormat_key_mismatch :
  flattenEvent Examples.ascii_conversion w0 = (Ok Examples.ascii_conversion_flattened, w0) /\
  flatFormat Examples.ascii_conversion_flattened w0 = (Raise (KeyError "x!a:"), w0) /\
  formatEvent Examples.ascii_conversion w0 = (Ok "5", w0) /\
  fst (flatKey newKeyFlattener (Some "x") (Some "") (Some (or_s (Some "a")))) = "x!a:" /\
  dict_mem "x!a:" [("x!s:", VStr "5"); ("x!:", VInt 5)] = false.
Proof. repeat split; reflexivity. Qed.

(** C7, as the specification states it: [extractField("function()", ...)] on
    the event [{"function": lambda: 7}] does not return 7; it raises
    [KeyError], because an event without [log_format] is not flattened. *)
Lemma extractField_without_format :
  extractField "function()" Examples.callable_only w0 =
    (Raise (KeyError "log_flattened"), w0).
Proof. reflexivity. Qed.

(** C7, amended. On the event
    [{"log_format": "{function()}", "function": lambda: 7}], whose template
    references the field, [extractField("function()", event)] returns 7, the
    result of the call: the expression is parsed as one field reference, its
    structured key ["function()!:"] is computed, the event is flattened, and
    the value stored under the key is returned. *)
Theorem extractField_call (w : world) :
  extractField "function()" Examples.callable_logged w =
    (Ok (VInt 7,
         Examples.callable_logged ++
         [("log_flattened",
           VDict [("function()!s:", VStr "7"); ("function()!:", VInt 7)])]), w)
  /\ parse "{function()}" = ([Segment "" (Some "function()") (Some "") None], None)
  /\ fst (flatKey newKeyFlattener (Some "function()") (Some "") None) = "function()!:".
Proof. repeat split; reflexivity. Qed.


(** C4, as the specification states it: in ["{f()} {f()}"] the same
    combination occurs twice, and [flattenEvent] calls [f] twice: the second
    occurrence has the key ["f()!s:/2"], which is not yet among the fields. *)
Lemma repeated_call_invoked_twice :
  exists event w,
    flattenEvent Examples.counted w0 = (Ok event, w) /\
    cell w0 0 = 0 /\ cell w 0 = 2 /\
    dict_get event "log_flattened" =
      Some (VDict [("f()!s:", VStr "0"); ("f()!:", VInt 0);
                   ("f()!s:/2", VStr "1"); ("f()!:/2", VInt 1)]).
Proof. eexists _, _. repeat split; reflexivity. Qed.

(** C2, as the specification states it: with a format specification the
    flattened rendering differs from the live one, for a pure field and no
    conversion at all. *)
Lemma format_spec_lost_by_flattening :
  formatEvent Examples.padded w0 = (Ok "  5", w0) /\
  flattenEvent Examples.padded w0 = (Ok Examples.padded_flattened, w0) /\
  flatFormat Examples.padded_flattened w0 = (Ok "5", w0) /\
  formatEvent Examples.padded_flattened w0 = (Ok "5", w0).
Proof. repeat split; reflexivity. Qed.

(** The two further conditions of the amended C2 are needed.  A field whose
    class defines [__format__] is rendered by that method live, and by
    [__str__] after flattening. *)
Lemma format_method_lost_by_flattening :
  formatEvent Examples.formatted w0 = (Ok "F", w0) /\
  exists flattened,
    flattenEvent Examples.formatted w0 = (Ok flattened, w0) /\
    flatFormat flattened w0 = (Ok "S", w0) /\
    formatEvent flattened w0 = (Ok "S", w0).
Proof. split; [reflexivity|]. eexists. repeat split; reflexivity. Qed.

(** A template given as bytes is decoded and rendered live, and cannot be
    flattened. *)
Lemma bytes_template_not_flattened :
  formatEvent Examples.bytes_template w0 = (Ok "5", w0) /\
  flattenEvent Examples.bytes_template w0 =
    (Raise (TypeError "expected str, got bytes"), w0).
Proof. split; reflexivity. Qed.

(** C8, as the specification states it: a [log_system] that is present with
    the value [None] is not stringified; the system is synthesized. *)
Lemma classic_system_none :
  dict_mem "log_system" Examples.system_none = true /\
  py_str VNone w0 = (Ok "None", w0) /\
  formatEventAsClassicLogText_default Examples.system_none w0 =
    (Ok (Some ("- [-#-] Hello!" +:+ nl)), w0).
Proof. repeat split; reflexivity. Qed.

(** ** Keys of different references never collide *)

Lemma pretty_N_char_digit x : is_digit (pretty_N_char x).
Proof.
  unfold is_digit, pretty_N_char.
  repeat case_match; cbn; lia.
Qed.

Lemma pretty_N_go_digits x s :
  Forall is_digit (list_ascii_of_string s) ->
  Forall is_digit (list_ascii_of_string (pretty_N_go x s)).
Proof.
  revert s. induction (N.lt_wf_0 x) as [x _ IH]; intros s Hs.
  destruct (decide (x = 0)%N) as [->|Hx]; [by rewrite pretty_N_go_0|].
  rewrite pretty_N_go_step by lia.
  apply IH; [apply N.div_lt; lia|].
  cbn [list_ascii_of_string]. constructor; [apply pretty_N_char_digit | done].
Qed.

Lemma pretty_nat_digits (n : nat) :
  Forall is_digit (list_ascii_of_string (pretty n)).
Proof.
  unfold pretty, pretty_nat, pretty, pretty_N.
  case_decide.
  - repeat constructor; unfold is_digit; cbn; lia.
  - by apply pretty_N_go_digits.
Qed.

Lemma first_occurrence {A} (x : A) (a a' b b' : list A) :
  a ++ x :: b = a' ++ x :: b' -> x ∉ a -> x ∉ a' -> a = a' /\ b = b'.
Proof.
  revert a'. induction a as [|y a IH]; intros [|y' a'] Heq Ha Ha'; simplify_eq/=.
  - done.
  - exfalso. apply Ha'. by left.
  - exfalso. apply Ha. by left.
  - destruct (IH a') as [-> ->]; try done.
    + intros Hin. apply Ha. by right.
    + intros Hin. apply Ha'. by right.
Qed.

Lemma last_occurrence {A} (x : A) (a a' b b' : list A) :
  a ++ x :: b = a' ++ x :: b' -> x ∉ b -> x ∉ b' -> a = a' /\ b = b'.
Proof.
  intros Heq Hb Hb'.
  apply (f_equal reverse) in Heq.
  rewrite !reverse_app, !reverse_cons, <- !(assoc_L (++)) in Heq. cbn in Heq.
  apply first_occurrence in Heq as [Hr1 Hr2]; [|by rewrite elem_of_reverse..].
  split; by apply (inj reverse).
Qed.

Lemma slash_not_digit (l : list ascii) : Forall is_digit l -> "/"%char ∉ l.
Proof.
  intros Hl Hin. rewrite Forall_forall in Hl. apply Hl in Hin.
  unfold is_digit in Hin. cbn in Hin. lia.
Qed.

Lemma key_of_inj c c' n n' :
  ends_colon c -> ends_colon c' -> key_of c n = key_of c' n' -> c = c' /\ n = n'.
Proof.
  intros [p ->] [p' ->]. unfold key_of.
  assert (Hmix : forall (q q' : string) (k : nat),
             q +:+ ":" ≠ (q' +:+ ":") +:+ "/" +:+ pretty k).
  { intros q q' k Heq. apply (f_equal list_ascii_of_string) in Heq.
    rewrite !chars_app in Heq. apply (f_equal last) in Heq.
    cbn [list_ascii_of_string] in Heq. rewrite last_snoc in Heq.
    rewrite (assoc_L (++)), last_app in Heq.
    pose proof (pretty_nat_digits k) as Hd.
    destruct (last (list_ascii_of_string (pretty k))) as [d|] eqn:Hlast.
    - apply last_Some_elem_of in Hlast. rewrite Forall_forall in Hd.
      apply Hd in Hlast. simplify_eq. unfold is_digit in Hlast. cbn in Hlast. lia.
    - rewrite last_snoc in Heq. discriminate. }
  intros Heq. repeat case_decide.
  - apply (f_equal list_ascii_of_string) in Heq. rewrite !chars_app in Heq.
    cbn [list_ascii_of_string] in Heq.
    change ([ "/"%char ] ++ ?l) with ("/"%char :: l) in Heq.
    apply last_occurrence in Heq as [Hc Hn];
      [|apply slash_not_digit, pretty_nat_digits..].
    apply chars_inj, (inj pretty) in Hn. apply (inj (.++ _)) in Hc.
    apply chars_inj in Hc. by subst.
  - exfalso. by apply (Hmix p' p n).
  - exfalso. by apply (Hmix p p' n').
  - split; [done | lia].
Qed.

Lemma canonicalKey_no_spec fn cv :
  canonicalKey (Some fn) (Some "") (Some cv) = (fn +:+ "!" +:+ cv) +:+ ":".
Proof.
  unfold canonicalKey, format_name; cbn [default].
  by rewrite app_str_nil_r, !app_str_assoc.
Qed.

Lemma canonicalKey_ends_colon fn cv :
  ends_colon (canonicalKey (Some fn) (Some "") (Some cv)).
Proof. rewrite canonicalKey_no_spec. by eexists. Qed.

Lemma canonicalKey_kinds fn fn' cv :
  cv = "s" \/ cv = "r" ->
  canonicalKey (Some fn) (Some "") (Some cv) ≠ canonicalKey (Some fn') (Some "") (Some "").
Proof.
  intros Hcv Heq. rewrite !canonicalKey_no_spec in Heq.
  apply (f_equal list_ascii_of_string) in Heq. rewrite !chars_app in Heq.
  apply (inj (.++ _)) in Heq.
  rewrite app_nil_r in Heq. apply (f_equal last) in Heq.
  rewrite !(assoc_L (++)) in Heq.
  destruct Hcv as [-> | ->]; cbn [list_ascii_of_string] in Heq;
    rewrite !last_snoc in Heq; discriminate.
Qed.

(** ** Dictionaries *)

Lemma dict_get_set d k v k' :
  dict_get (dict_set d k v) k' = if decide (k = k') then Some v else dict_get d k'.
Proof.
  induction d as [|[k0 v0] d IH]; cbn.
  - by repeat case_decide.
  - destruct (decide (k0 = k)) as [->|Hne]; cbn.
    + by repeat case_decide.
    + rewrite IH. repeat case_decide; congruence.
Qed.

Lemma dict_mem_set d k v k' :
  dict_mem k' (dict_set d k v) = if decide (k = k') then true else dict_mem k' d.
Proof. unfold dict_mem. rewrite dict_get_set. by case_decide. Qed.

(** ** Worlds *)

Lemma cell_bump w l : cell (bump w l) l = S (cell w l).
Proof. unfold cell at 1, bump; cbn. by rewrite lookup_insert_eq. Qed.

(** ** Flattening and rendering *)

Section Flattening.
Context `{Externals}.

Lemma conversion_of_cases c : conversion_of c = "s" \/ conversion_of c = "r".
Proof. unfold conversion_of. case_decide; auto. Qed.

Lemma or_s_known c : known_conversion c -> or_s c = conversion_of c.
Proof. by intros [-> | [-> | ->]]. Qed.

Variable event : dict.

Lemma keys_differ kf fn conv : flattenedKey_of kf fn conv ≠ structuredKey_of kf fn.
Proof.
  unfold flattenedKey_of, structuredKey_of. intros Heq.
  apply key_of_inj in Heq as [Heq _]; [|apply canonicalKey_ends_colon..].
  by apply canonicalKey_kinds in Heq; [|apply conversion_of_cases].
Qed.

(** A reference whose key is new is resolved, and both of its keys are
    stored. *)
Lemma flattenEvent_step_fresh seg fn kf fields w :
  fieldName seg = Some fn -> formatSpec seg = Some "" ->
  keys_stale kf fields ->
  flattenEvent_step event seg (kf, fields) w =
    (let! (v, t) := field_text event fn (conversion seg) in
     ret (after_reference kf fn (conversion seg),
          dict_set (dict_set fields (flattenedKey_of kf fn (conversion seg)) (VStr t))
                   (structuredKey_of kf fn) v)) w.
Proof.
  intros Hfn Hspec Hstale.
  unfold flattenEvent_step. rewrite Hfn, Hspec, !flatKey_eq.
  fold (conversion_of (conversion seg)).
  set (cF := canonicalKey (Some fn) (Some "") (Some (conversion_of (conversion seg)))).
  set (cS := canonicalKey (Some fn) (Some "") (Some "")).
  assert (HcFS : cF ≠ cS) by apply canonicalKey_kinds, conversion_of_cases.
  rewrite count_insert, decide_False by done.
  rewrite Hstale; [|apply canonicalKey_ends_colon | lia].
  unfold field_text, converted, conversion_of, bind, ret.
  destruct (get_field _ _ w) as [[v|?] w1]; [|done].
  destruct (endswith fn "()").
  - destruct (py_call v w1) as [[v'|?] w2]; [|done].
    destruct (decide (conversion seg = Some "r")); cbn.
    + rewrite decide_False, decide_True by done.
      by destruct (py_repr v' w2) as [[t|?] w3].
    + rewrite decide_True by done.
      by destruct (py_str v' w2) as [[t|?] w3].
  - destruct (decide (conversion seg = Some "r")); cbn.
    + rewrite decide_False, decide_True by done.
      by destruct (py_repr v w1) as [[t|?] w3].
    + rewrite decide_True by done.
      by destruct (py_str v w1) as [[t|?] w3].
Qed.

Lemma count_after_reference kf fn conv c :
  count kf c <= count (after_reference kf fn conv) c.
Proof.
  unfold after_reference. rewrite count_insert. case_decide; [subst; lia|].
  rewrite count_insert, count_eta. case_decide; [subst; lia | done].
Qed.

Lemma count_after_reference_flattened kf fn conv :
  count (after_reference kf fn conv) (canonicalKey (Some fn) (Some "") (Some (conversion_of conv)))
  = S (count kf (canonicalKey (Some fn) (Some "") (Some (conversion_of conv)))).
Proof.
  unfold after_reference. rewrite count_insert, decide_False.
  - by rewrite count_insert, decide_True.
  - intros Heq. symmetry in Heq. revert Heq.
    apply canonicalKey_kinds, conversion_of_cases.
Qed.

Lemma count_after_reference_structured kf fn conv :
  count (after_reference kf fn conv) (canonicalKey (Some fn) (Some "") (Some ""))
  = S (count kf (canonicalKey (Some fn) (Some "") (Some ""))).
Proof. unfold after_reference. by rewrite count_insert, decide_True. Qed.

Lemma keys_stale_step kf fields fn conv t v :
  keys_stale kf fields ->
  keys_stale (after_reference kf fn conv)
    (dict_set (dict_set fields (flattenedKey_of kf fn conv) t) (structuredKey_of kf fn) v).
Proof.
  intros Hstale c n Hc Hn. rewrite !dict_mem_set.
  case_decide as HS; [|case_decide as HF].
  - exfalso. apply key_of_inj in HS as [<- <-]; [|apply canonicalKey_ends_colon|done].
    rewrite count_after_reference_structured in Hn. lia.
  - exfalso. apply key_of_inj in HF as [<- <-]; [|apply canonicalKey_ends_colon|done].
    rewrite count_after_reference_flattened in Hn. lia.
  - apply Hstale; [done|]. pose proof (count_after_reference kf fn conv c). lia.
Qed.

End Flattening.

Section Live_and_flattened.
Context `{Externals}.
Variable event : dict.
Variable expand : option string -> option nat -> M (string * option nat).
Hypothesis expand_empty : forall auto w, expand (Some "") auto w = (Ok ("", auto), w).

(** Conversion and formatting of a live field, with an empty format
    specification, amount to [str] or [repr] of the field, when without a
    conversion the field is formatted as [str] does. *)
Lemma live_conversion {B} conv obj auto (K : string -> option nat -> M B) w :
  known_conversion conv ->
  (conv = None -> formats_as_str obj) ->
  (let! obj := convert_field obj conv in
   let! (format_spec, auto) := expand (Some "") auto in
   let! s := format_field obj format_spec in
   K s auto) w
  = (let! t := converted conv obj in K t auto) w.
Proof.
  intros [-> | [-> | ->]] Hformat; unfold convert_field, converted; decide_texts.
  - rewrite bind_ret_l, (bind_ok _ _ _ _ _ (expand_empty auto w)).
    unfold format_field. decide_texts.
    apply bind_ext_l, Hformat. done.
  - rewrite bind_assoc. apply bind_ext. intros t w1.
    rewrite bind_ret_l, (bind_ok _ _ _ _ _ (expand_empty auto w1)).
    unfold format_field. by decide_texts.
  - rewrite bind_assoc. apply bind_ext. intros t w1.
    rewrite bind_ret_l, (bind_ok _ _ _ _ _ (expand_empty auto w1)).
    unfold format_field. by decide_texts.
Qed.

(** The live lookup of a field through [CallMapping] is the lookup that the
    flattener makes, followed by the call if the name has the call suffix. *)
Lemma live_get_field fn w :
  resolves_alike fn ->
  get_field fn (CallMapping event) w =
    (let! v := get_field (if endswith fn "()" then drop_last2 fn else fn)
                         (dict_item event) in
     if endswith fn "()" then py_call v else ret v) w.
Proof.
  intros (_ & _ & Hsplit). unfold get_field.
  destruct (endswith fn "()") eqn:Hcall.
  - destruct Hsplit as [-> ->]. cbn [lift]. mnorm.
    cbn [get_value resolve pending]. unfold CallMapping. rewrite Hcall.
    mnorm. apply bind_ext. intros v w1. mnorm.
    unfold bind. by destruct (py_call v w1) as [[?|?] ?].
  - destruct (field_name_split fn) as [[first [rest err]]|?] eqn:Hs; [|done].
    cbn [lift]. mnorm.
    destruct first as [n|k]; [done|]. cbn [get_value].
    unfold CallMapping. rewrite (Hsplit _ _ eq_refl).
    mnorm. apply bind_ext. intros v w1.
    mnorm. apply bind_ext. intros v' w2.
    unfold bind. by destruct (pending err v' w2) as [[?|?] ?].
Qed.

(** The live rendering of a reference and its flattening perform the same
    steps in the same order. *)
Lemma live_field {B} fn conv auto (K : string -> option nat -> M B) w :
  resolves_alike fn -> known_conversion conv ->
  (conv = None ->
   forall v w1, field_value event fn w = (Ok v, w1) -> formats_as_str v) ->
  (let! (field_name, auto) := number_field fn auto in
   let! obj := get_field field_name (CallMapping event) in
   let! obj := convert_field obj conv in
   let! (format_spec, auto) := expand (Some "") auto in
   let! s := format_field obj format_spec in
   K s auto) w
  = (let! (_, t) := field_text event fn conv in K t auto) w.
Proof.
  intros Halike Hconv Hformat.
  assert (Hnum : number_field fn auto = ret (fn, auto)).
  { destruct Halike as (Hne & Hdigit & _).
    unfold number_field. by rewrite decide_False, Hdigit. }
  rewrite Hnum. mnorm.
  rewrite (bind_ext_l _ _ _ _ (live_get_field fn w Halike)).
  unfold field_text. mnorm. apply bind_ext_run. intros v w1 Hget.
  mnorm. apply bind_ext_run. intros v' w2 Hcall.
  rewrite live_conversion; [|done|].
  - mnorm. apply bind_ext. intros t w3. by mnorm.
  - intros Hnone. apply (Hformat Hnone v' w2).
    unfold field_value. by rewrite (bind_ok _ _ _ _ _ Hget).
Qed.

End Live_and_flattened.

Lemma kept_set fields k v :
  dict_mem k fields = false -> kept fields (dict_set fields k v).
Proof.
  intros Hk k0 v0 Hk0. rewrite dict_get_set. case_decide as Heq; [|done].
  subst. unfold dict_mem in Hk. by rewrite Hk0 in Hk.
Qed.

Section Loops.
Context `{Externals}.
Variable event : dict.
Variable expand : option string -> option nat -> M (string * option nat).
Hypothesis expand_empty : forall auto w, expand (Some "") auto w = (Ok ("", auto), w).

Lemma same_counts_step kf1 kf2 fn conv :
  same_counts kf1 kf2 ->
  same_counts (after_reference kf1 fn conv)
    (flatKey kf2 (Some fn) (Some "") (Some (conversion_of conv))).2.
Proof.
  intros Hsame fn0 cv0 Hcv0. rewrite flatKey_eq. cbn [snd].
  unfold after_reference. rewrite count_insert, decide_False; last first.
  { intros Heq. symmetry in Heq. by apply canonicalKey_kinds in Heq. }
  rewrite !count_insert, !count_eta.
  rewrite (Hsame fn (conversion_of conv)) by apply conversion_of_cases.
  case_decide; [done|]. by apply Hsame.
Qed.

Lemma kept_step kf fields fn conv t v :
  keys_stale kf fields ->
  kept fields
    (dict_set (dict_set fields (flattenedKey_of kf fn conv) t) (structuredKey_of kf fn) v).
Proof.
  intros Hstale k0 v0 Hk0.
  apply kept_set.
  - rewrite dict_mem_set, decide_False by apply keys_differ.
    apply Hstale; [apply canonicalKey_ends_colon | lia].
  - apply kept_set; [|done].
    apply Hstale; [apply canonicalKey_ends_colon | lia].
Qed.

(** The simulation: when the live loop returns a text, the loop of the
    flattener returns in the same world, and the loop of [flatFormat] over
    any dictionary that keeps the flattened fields appends the same text,
    in any world, and leaves that world as it is. *)
Lemma loops_agree segs :
  Forall plain_reference segs ->
  Forall (formats_by_str event) segs ->
  forall r auto w res auto' w' kf1 kf2 fields,
    _vformat_loop expand (CallMapping event) segs r auto w = (Ok (res, auto'), w') ->
    keys_stale kf1 fields -> same_counts kf1 kf2 ->
    exists kf1' fields' delta,
      res = r +:+ delta /\
      flattenEvent_loop event segs (kf1, fields) w = (Ok (kf1', fields'), w') /\
      kept fields fields' /\
      forall F s0 w2, kept fields' F ->
        exists kf2',
          flatFormat_loop (VDict F) segs (kf2, s0) w2 = (Ok (kf2', s0 +:+ delta), w2).
Proof.
  induction 1 as [|seg segs (fn & Hfn & Halike & Hspec & Hconv) _ IH];
    intros Hformats r auto w res auto' w' kf1 kf2 fields Hlive Hstale Hsame.
  - cbn in Hlive. injection Hlive as <- <- <-.
    exists kf1, fields, "". rewrite app_str_nil_r.
    split; [done|]. split; [done|]. split; [by intros k0 v0|].
    intros F s0 w2 _. exists kf2. by rewrite app_str_nil_r.
  - apply Forall_cons in Hformats as [Hformat Hformats].
    cbn [_vformat_loop] in Hlive. rewrite Hfn, Hspec in Hlive.
    rewrite (live_field event expand expand_empty) in Hlive;
      [|done|done|intros Hnone v w1; by apply Hformat].
    apply bind_ok_inv in Hlive as ([v t] & w1 & Htext & Hlive).
    assert (Hstep : flattenEvent_step event seg (kf1, fields) w =
              (Ok (after_reference kf1 fn (conversion seg),
                   dict_set (dict_set fields (flattenedKey_of kf1 fn (conversion seg))
                                      (VStr t))
                            (structuredKey_of kf1 fn) v), w1)).
    { rewrite (flattenEvent_step_fresh event seg fn) by done.
      by rewrite (bind_ok _ _ _ _ _ Htext). }
    destruct (IH Hformats _ _ _ _ _ _ _ _ _ Hlive
                (keys_stale_step _ _ fn (conversion seg) (VStr t) v Hstale)
                (same_counts_step _ _ fn (conversion seg) Hsame))
      as (kf1' & fields' & delta & -> & Hflatten & Hkept & Hflat).
    exists kf1', fields', (literalText seg +:+ t +:+ delta).
    split; [by rewrite !app_str_assoc|].
    split; [cbn [flattenEvent_loop]; by rewrite (bind_ok _ _ _ _ _ Hstep)|].
    split.
    { intros k0 v0 Hk0. by apply Hkept, kept_step. }
    intros F s0 w2 HF.
    destruct (Hflat F ((s0 +:+ literalText seg) +:+ t) w2 HF) as (kf2' & Hrest).
    exists kf2'. cbn [flatFormat_loop].
    assert (Hstep2 : flatFormat_step (VDict F) seg (kf2, s0) w2 =
              (Ok ((flatKey kf2 (Some fn) (Some "") (Some (conversion_of (conversion seg)))).2,
                   (s0 +:+ literalText seg) +:+ t), w2)).
    { unfold flatFormat_step. rewrite Hfn, Hspec, or_s_known by done.
      rewrite flatKey_eq. cbn [snd].
      rewrite <- (Hsame fn) by apply conversion_of_cases.
      fold (flattenedKey_of kf1 fn (conversion seg)).
      assert (Hget : dict_get F (flattenedKey_of kf1 fn (conversion seg)) = Some (VStr t)).
      { apply HF, Hkept. rewrite !dict_get_set.
        rewrite decide_False by (intros Heq; symmetry in Heq; by apply keys_differ in Heq).
        by rewrite decide_True. }
      cbn [py_getitem]. by rewrite Hget. }
    rewrite (bind_ok _ _ _ _ _ Hstep2), Hrest. by rewrite !app_str_assoc.
Qed.

End Loops.

Section Deferred_rendering.
Context `{Externals}.

Lemma flatFormat_of_fields event format fields segs kf s w :
  dict_get event "log_format" = Some (VStr format) ->
  parse format = (segs, None) ->
  flatFormat_loop (VDict fields) segs (newKeyFlattener, "") w = (Ok (kf, s), w) ->
  flatFormat (dict_set event "log_flattened" (VDict fields)) w = (Ok s, w).
Proof.
  intros Hformat Hparse Hloop. unfold flatFormat, dict_item.
  rewrite !dict_get_set. decide_texts. rewrite Hformat. mnorm.
  cbn [parse_value]. rewrite Hparse. mnorm.
  by rewrite (bind_ok _ _ _ _ _ Hloop).
Qed.

(** C2, amended. Take an event whose template is a text and consists of
    plain references: each has a field name that is resolved alike with and
    without the call suffix, no format specification, and a conversion that
    is absent, [s] or [r]; a field referenced without a conversion has a
    value that [format] renders as [str] does (its class does not define a
    [__format__] of its own).  If the live rendering returns a text, then
    [flattenEvent] succeeds and leaves the world as the live rendering does,
    and rendering the flattened event, with [flatFormat] or [formatEvent],
    returns that same text in every world and leaves that world unchanged. *)
Theorem flatten_then_render (event : dict) (format s : string) (w w' : world) :
  parse "" = ([], None) ->
  dict_get event "log_format" = Some (VStr format) ->
  dict_mem "log_flattened" event = false ->
  Forall plain_reference (parse format).1 ->
  Forall (formats_by_str event) (parse format).1 ->
  formatWithCall format event w = (Ok s, w') ->
  formatEvent event w = (Ok s, w') /\
  exists flattened,
    flattenEvent event w = (Ok flattened, w') /\
    forall w2, flatFormat flattened w2 = (Ok s, w2) /\
               formatEvent flattened w2 = (Ok s, w2).
Proof.
  intros Hempty Hformat Hunflattened Hplain Hformats Hlive. split.
  { unfold formatEvent, try_except, formatEvent_try, dict_get_default.
    rewrite Hunflattened, Hformat. cbn [default from_option id]. by rewrite Hlive. }
  unfold formatWithCall, vformat in Hlive.
  apply bind_ok_inv in Hlive as ([res auto'] & w1 & Hlive & [= -> ->]).
  cbn [_vformat] in Hlive.
  destruct (parse format) as [segs err] eqn:Hparse.
  apply bind_ok_inv in Hlive as ([res' auto''] & w2 & Hloop & Hpending).
  apply pending_ok_inv in Hpending as (-> & [= -> ->] & ->).
  assert (Hexpand : forall auto w,
             _vformat 2 (CallMapping event) (Some "") auto w = (Ok ("", auto), w)).
  { intros auto w0. cbn [_vformat]. by rewrite Hempty. }
  destruct (loops_agree event _ Hexpand segs Hplain Hformats _ _ _ _ _ _
              newKeyFlattener newKeyFlattener [] Hloop)
    as (kf1' & fields' & delta & -> & Hflatten & _ & Hflat); [done..|].
  exists (dict_set event "log_flattened" (VDict fields')).
  split.
  { unfold flattenEvent, dict_mem, dict_item. rewrite Hformat. cbn [negb]. mnorm.
    cbn [parse_value]. rewrite Hparse. mnorm.
    by rewrite (bind_ok _ _ _ _ _ Hflatten). }
  intros w3.
  destruct (Hflat fields' "" w3) as (kf2' & Hrender); [by intros k0 v0|].
  assert (Hflatformat :
            flatFormat (dict_set event "log_flattened" (VDict fields')) w3 =
              (Ok ("" +:+ delta), w3))
    by eauto using flatFormat_of_fields.
  split; [done|].
  unfold formatEvent, try_except, formatEvent_try.
  by rewrite dict_mem_set, decide_True, Hflatformat.
Qed.

End Deferred_rendering.

Lemma plain_reference_x (lit : string) (conv : option string) :
  known_conversion conv -> plain_reference (Segment lit (Some "x") (Some "") conv).
Proof.
  intros Hconv. exists "x". repeat split; try done.
  intros k rest [= <- <-]. reflexivity.
Defined.

Lemma formats_by_str_x (lit : string) (conv : option string) :
  formats_by_str Examples.repeated (Segment lit (Some "x") (Some "") conv).
Proof.
  intros _ fn v w w' [= <-] Hvalue. vm_compute in Hvalue.
  injection Hvalue as <- _. by intros w1.
Defined.

Lemma flatten_then_render_witness :
  (parse "" = ([], None) /\
   dict_get Examples.repeated "log_format" = Some (VStr "{x} {x} {x!r}") /\
   dict_mem "log_flattened" Examples.repeated = false /\
   Forall plain_reference (parse "{x} {x} {x!r}").1 /\
   Forall (formats_by_str Examples.repeated) (parse "{x} {x} {x!r}").1 /\
   formatWithCall "{x} {x} {x!r}" Examples.repeated w0 = (Ok "5 5 5", w0)) /\
  formatEvent Examples.repeated w0 = (Ok "5 5 5", w0) /\
  exists flattened,
    flattenEvent Examples.repeated w0 = (Ok flattened, w0) /\
    forall w2, flatFormat flattened w2 = (Ok "5 5 5", w2) /\
               formatEvent flattened w2 = (Ok "5 5 5", w2).
Proof.
  assert (Hplain : Forall plain_reference (parse "{x} {x} {x!r}").1).
  { repeat constructor; apply plain_reference_x; unfold known_conversion; auto. }
  assert (Hformats : Forall (formats_by_str Examples.repeated) (parse "{x} {x} {x!r}").1).
  { repeat constructor; apply formats_by_str_x. }
  split; [by repeat split|].
  apply (flatten_then_render Examples.repeated "{x} {x} {x!r}" "5 5 5" w0 w0);
    [reflexivity | reflexivity | reflexivity | exact Hplain | exact Hformats | reflexivity].
Defined.

Section Repeated_references.
Context `{Externals}.
Variable event : dict.

(** A reference whose flattened key is among the fields is skipped: nothing
    is resolved, called or stored. *)
Lemma flattenEvent_step_skip seg kf fields w :
  dict_mem (flatKey kf (fieldName seg) (formatSpec seg)
              (Some (conversion_of (conversion seg)))).1 fields = true ->
  exists kf', flattenEvent_step event seg (kf, fields) w = (Ok (kf', fields), w).
Proof.
  unfold flattenEvent_step. fold (conversion_of (conversion seg)).
  destruct (flatKey kf _ _ _) as [flattenedKey kf1].
  destruct (flatKey kf1 _ _ _) as [structuredKey kf2]. cbn [fst].
  intros ->. by exists kf2.
Qed.

Variables (fn key : string) (conv : option string) (l : nat).
Hypothesis call_suffix : endswith fn "()" = true.
Hypothesis plain_name : field_name_split (drop_last2 fn) = Ok (IStr key, ([], None)).
Hypothesis callable : dict_get event key = Some (VNext l).

Lemma field_text_next w :
  exists t, field_text event fn conv w = (Ok (VInt (Z.of_nat (cell w l)), t), bump w l).
Proof.
  unfold field_text, get_field, dict_item.
  rewrite call_suffix, plain_name. cbn [lift]. mnorm. cbn [get_value].
  rewrite callable. mnorm. cbn [resolve]. mnorm. cbn [pending]. mnorm.
  cbn [py_call]. unfold bind at 1, converted.
  destruct (decide (conv = Some "r")); cbn; eauto.
Qed.

(** Each of the references is resolved: with no format specification, the
    key of a further occurrence is never among the fields. *)
Lemma flattenEvent_loop_calls segs :
  Forall (fun seg => fieldName seg = Some fn /\ formatSpec seg = Some "" /\
                     conversion seg = conv) segs ->
  forall kf fields w, keys_stale kf fields ->
    exists st w', flattenEvent_loop event segs (kf, fields) w = (Ok st, w') /\
                  cell w' l = cell w l + List.length segs.
Proof.
  induction 1 as [|seg segs (Hfn & Hspec & Hconv) _ IH]; intros kf fields w Hstale.
  - exists (kf, fields), w. split; [done | cbn; lia].
  - destruct (field_text_next w) as [t Htext].
    destruct (IH _ _ (bump w l)
                (keys_stale_step _ _ fn conv (VStr t) (VInt (Z.of_nat (cell w l))) Hstale))
      as (st & w' & Hloop & Hcell).
    exists st, w'. split.
    + cbn [flattenEvent_loop].
      erewrite bind_ok; [exact Hloop|].
      rewrite (flattenEvent_step_fresh event seg fn) by done.
      rewrite Hconv. by rewrite (bind_ok _ _ _ _ _ Htext).
    + rewrite Hcell, cell_bump. cbn [List.length]. lia.
Qed.

(** C4, amended. [flattenEvent] skips a reference, without resolving or
    calling anything, when its flattened key is already among the fields.
    The key of a repeated combination carries the number of the occurrence,
    so that, with no format specification, it is never among the fields: a
    call-suffixed field that the template references [n] times is called [n]
    times. *)
Theorem repeated_reference_resolved_again (format : string) (segs : list segment)
    (w : world) :
  dict_get event "log_format" = Some (VStr format) ->
  parse format = (segs, None) ->
  Forall (fun seg => fieldName seg = Some fn /\ formatSpec seg = Some "" /\
                     conversion seg = conv) segs ->
  (exists flattened w',
     flattenEvent event w = (Ok flattened, w') /\
     cell w' l = cell w l + List.length segs) /\
  (forall seg kf fields w1,
     dict_mem (flatKey kf (fieldName seg) (formatSpec seg)
                 (Some (conversion_of (conversion seg)))).1 fields = true ->
     exists kf', flattenEvent_step event seg (kf, fields) w1 = (Ok (kf', fields), w1)).
Proof.
  intros Hformat Hparse Hsegs. split; [|apply flattenEvent_step_skip].
  destruct (flattenEvent_loop_calls segs Hsegs newKeyFlattener [] w)
    as ([kf' fields'] & w' & Hloop & Hcell); [done|].
  exists (dict_set event "log_flattened" (VDict fields')), w'. split; [|done].
  unfold flattenEvent, dict_mem, dict_item. rewrite Hformat. cbn [negb]. mnorm.
  cbn [parse_value]. rewrite Hparse. mnorm.
  by rewrite (bind_ok _ _ _ _ _ Hloop).
Qed.

End Repeated_references.

Lemma repeated_reference_resolved_again_witness :
  (dict_get Examples.counted "log_format" = Some (VStr "{f()} {f()}") /\
   parse "{f()} {f()}" =
     ([Segment "" (Some "f()") (Some "") None;
       Segment " " (Some "f()") (Some "") None], None) /\
   endswith "f()" "()" = true /\
   field_name_split (drop_last2 "f()") = Ok (IStr "f", ([], None)) /\
   dict_get Examples.counted "f" = Some (VNext 0)) /\
  exists flattened w',
    flattenEvent Examples.counted w0 = (Ok flattened, w') /\
    cell w' 0 = cell w0 0 + 2.
Proof.
  split; [by repeat split|].
  refine (proj1 (repeated_reference_resolved_again Examples.counted "f()" "f" None 0
                   _ _ _ "{f()} {f()}"
                   [Segment "" (Some "f()") (Some "") None;
                    Segment " " (Some "f()") (Some "") None] w0 _ _ _));
    try reflexivity.
  by repeat constructor.
Defined.

(** ** Rendering a flattened event *)









Section Flattened_only.
Context `{Externals}.





End Flattened_only.


(** ** The classic log line *)

Lemma indent_continuation_newline (a b : string) :
  indent_continuation (a +:+ nl +:+ b) =
    indent_continuation a +:+ nl +:+ tab +:+ indent_continuation b.
Proof.
  induction a as [|c a IH]; [done|].
  rewrite app_str_cons. cbn [indent_continuation].
  case_decide; by rewrite IH.
Qed.

Lemma indent_continuation_one_line (s : string) :
  contains_char "010"%char s = false -> indent_continuation s = s.
Proof.
  induction s as [|c s IH]; [done|]. cbn.
  case_decide; [done|]. intros Hs. by rewrite IH.
Qed.

Section Classic.
Context `{Externals}.

(** C8, amended. For an event whose message text is not empty and whose
    time stamp the time formatter returns as a text, the result is
    ["{timeStamp} [{system}] {eventText}\n"] with a tab after every newline
    of the message.  The system is the stringified [log_system] when that is
    present and not [None] ("UNFORMATTABLE" when stringifying it raises an
    [Exception]; what is not an [Exception] is raised to the caller);
    when [log_system] is absent or [None], it is ["{namespace}#{levelName}"],
    the namespace being the text under [log_namespace] or "-", and the level
    name the text that [log_level] exposes as [name], or "-" when no level is
    set. *)
Theorem classic_log_text (event : dict) (formatTime_ : value -> M value)
    (text timeStamp : string) (w w1 w2 : world) :
  formatEvent event w = (Ok text, w1) ->
  text ≠ "" ->
  formatTime_ (dict_get_default event "log_time" VNone) w1 = (Ok (VStr timeStamp), w2) ->
  (forall system,
     dict_get event "log_system" = Some system -> system ≠ VNone ->
     (exists s w3,
        formatEventAsClassicLogText event formatTime_ w =
          (Ok (Some (classic_line timeStamp s text)), w3) /\
        (py_str system w2 = (Ok s, w3) \/
         s = "UNFORMATTABLE" /\
         exists e, py_str system w2 = (Raise e, w3) /\ is_Exception e = true)) \/
     (exists e w3,
        py_str system w2 = (Raise e, w3) /\ is_Exception e = false /\
        formatEventAsClassicLogText event formatTime_ w = (Raise e, w3))) /\
  (dict_get event "log_system" = None \/ dict_get event "log_system" = Some VNone ->
   forall namespace levelName,
     namespace_text event = Some namespace ->
     level_name event = Some levelName ->
     formatEventAsClassicLogText event formatTime_ w =
       (Ok (Some (classic_line timeStamp (namespace +:+ "#" +:+ levelName) text)), w2)) /\
  (forall a b, indent_continuation (a +:+ nl +:+ b) =
               indent_continuation a +:+ nl +:+ tab +:+ indent_continuation b) /\
  (forall s, contains_char "010"%char s = false -> indent_continuation s = s).
Proof.
  intros Hevent Htext Htime.
  assert (Hrun : forall (k : string -> M string),
    (let! eventText := formatEvent event in
     if decide (eventText = "") then ret None
     else let! timeStamp := formatTime_ (dict_get_default event "log_time" VNone) in
          let! system := k (indent_continuation eventText) in
          let! timeStamp := py_format timeStamp in
          ret (Some (timeStamp +:+ " [" +:+ system +:+ "] " +:+
                     indent_continuation eventText +:+ nl))) w
    = (let! system := k (indent_continuation text) in
       ret (Some (classic_line timeStamp system text))) w2).
  { intros k. rewrite (bind_ok _ _ _ _ _ Hevent), decide_False by done.
    rewrite (bind_ok _ _ _ _ _ Htime).
    apply bind_ext. intros system w3. by mnorm. }
  split; [|split; [|split]].
  - intros system Hsystem Hnone. unfold formatEventAsClassicLogText.
    rewrite (Hrun (fun _ => _)). unfold dict_get_default. rewrite Hsystem.
    cbn [default from_option id]. unfold bind, try_except.
    destruct system; try done.
    all: match goal with
         | |- context [py_str ?v ?w'] => destruct (py_str v w') as [[txt|err] w3] eqn:Hstr
         end; cbn.
    all: try (left; exists txt, w3; split; [done | by left]).
    all: destruct (is_Exception err) eqn:Herr; cbn.
    all: first [ left; exists "UNFORMATTABLE", w3; split; [done|]; right;
                 split; [done | by exists err]
               | right; by exists err, w3 ].
  - intros Hsystem namespace levelName Hnamespace Hlevel.
    unfold formatEventAsClassicLogText. rewrite (Hrun (fun _ => _)).
    assert (Hnone : dict_get_default event "log_system" VNone = VNone).
    { unfold dict_get_default. by destruct Hsystem as [-> | ->]. }
    rewrite Hnone. unfold namespace_text, level_name in *. unfold dict_get_default.
    destruct (dict_get event "log_namespace") as [[]|]; simplify_eq/=;
      destruct (dict_get event "log_level") as [[]|]; simplify_eq/=; try done.
    all: destruct (dict_get attrs "name") as [[]|]; by simplify_eq/=.
  - apply indent_continuation_newline.
  - apply indent_continuation_one_line.
Qed.

End Classic.

Lemma classic_log_text_witness :
  (formatEvent Examples.hello w0 = (Ok "Hello!", w0) /\
   "Hello!" ≠ "" /\
   formatTime (dict_get_default Examples.hello "log_time" VNone) None None w0 =
     (Ok (VStr "-"), w0) /\
   dict_get Examples.hello "log_system" = None /\
   namespace_text Examples.hello = Some "ns" /\
   level_name Examples.hello = Some "info") /\
  formatEventAsClassicLogText_default Examples.hello w0 =
    (Ok (Some ("- [ns#info] Hello!" +:+ nl)), w0).
Proof.
  split; [by repeat split|].
  refine (proj1 (proj2 (classic_log_text Examples.hello
                          (fun when => formatTime when None None)
                          "Hello!" "-" w0 w0 w0 _ _ _)) _ "ns" "info" _ _);
    try reflexivity; [discriminate | by left].
Defined.

(** * Further properties of the module *)

(** ** The numbering of keys *)

Lemma flatKey_run_cons self f s c calls :
  flatKey_run self ((f, s, c) :: calls) =
    (flatKey self f s c).1 :: flatKey_run (flatKey self f s c).2 calls.
Proof. cbn [flatKey_run]. by destruct (flatKey self f s c). Qed.

Lemma count_flatKey self f s c c' :
  count (flatKey self f s c).2 c' =
    if decide (canonicalKey f s c = c') then S (count self c') else count self c'.
Proof.
  rewrite flatKey_eq. cbn [snd]. rewrite count_insert, count_eta.
  case_decide; by subst.
Qed.

Lemma flatKey_run_lookup self pre x post :
  flatKey_run self (pre ++ x :: post) !! List.length pre =
    Some (key_of (canonical_of x)
                 (S (count self (canonical_of x) + earlier (canonical_of x) pre))).
Proof.
  revert self. induction pre as [|[[f s] c] pre IH]; intros self.
  - destruct x as [[f s] c]. cbn [app List.length]. rewrite flatKey_run_cons.
    cbn [lookup list_lookup]. rewrite flatKey_eq. cbn [fst].
    unfold earlier, canonical_of. cbn. by rewrite Nat.add_0_r.
  - cbn [app List.length]. rewrite flatKey_run_cons. cbn [lookup list_lookup].
    change (list_lookup (List.length pre) ?l) with (l !! List.length pre).
    rewrite IH, count_flatKey. unfold earlier. rewrite filter_cons.
    change (canonical_of (f, s, c)) with (canonicalKey f s c).
    case_decide; cbn [List.length]; do 2 f_equal; lia.
Qed.

(** X1. On one [KeyFlattener], whatever other calls come in between, a call
    returns the canonical key of its arguments when no earlier call had the
    same canonical key, and that key followed by [/n] when it is the [n]-th
    call with this canonical key: the counters of different canonical keys do
    not interfere. *)
Theorem flatKey_numbering (pre post : list call) (x : call) :
  flatKey_run newKeyFlattener (pre ++ x :: post) !! List.length pre =
    Some (if decide (earlier (canonical_of x) pre = 0) then canonical_of x
          else canonical_of x +:+ "/" +:+ pretty (S (earlier (canonical_of x) pre))).
Proof.
  rewrite flatKey_run_lookup. change (count newKeyFlattener _) with 0.
  cbn [Nat.add]. unfold key_of. f_equal.
  destruct (decide (earlier (canonical_of x) pre = 0)) as [->|Hne].
  - by rewrite decide_False by lia.
  - by rewrite decide_True by lia.
Qed.

Lemma canonicalKey_no_spec_ends_colon f s c :
  no_spec s -> ends_colon (canonicalKey f s c).
Proof.
  intros Hs. exists (format_name f +:+ "!" +:+ default "" c).
  unfold canonicalKey. destruct Hs as [-> | ->]; cbn [default from_option id];
    by rewrite app_str_nil_r, !app_str_assoc.
Qed.

Lemma flatKey_run_fresh calls :
  Forall (fun x : call => no_spec x.1.2) calls ->
  forall self,
    NoDup (flatKey_run self calls) /\
    forall k, k ∈ flatKey_run self calls ->
      exists c n, ends_colon c /\ count self c < n /\ k = key_of c n.
Proof.
  induction 1 as [|[[f s] c] calls Hs _ IH]; intros self.
  - split; [constructor | by intros k ?%elem_of_nil].
  - rewrite flatKey_run_cons. cbn [fst snd] in Hs.
    destruct (IH (flatKey self f s c).2) as [Hnodup Hkeys].
    pose proof (canonicalKey_no_spec_ends_colon f s c Hs) as Hcolon.
    rewrite flatKey_eq at 1 2. cbn [fst]. split.
    + constructor; [|done]. intros Hin.
      apply Hkeys in Hin as (c' & n & Hc' & Hn & Heq).
      apply key_of_inj in Heq as [<- <-]; [|done..].
      rewrite count_flatKey, decide_True in Hn by done. lia.
    + intros k [->|Hin]%elem_of_cons.
      * exists (canonicalKey f s c), (S (count self (canonicalKey f s c))).
        split; [done|]. split; [lia | done].
      * apply Hkeys in Hin as (c' & n & Hc' & Hn & ->).
        exists c', n. split; [done|]. split; [|done].
        rewrite count_flatKey in Hn. case_decide; lia.
Qed.

(** X2. As long as no call carries a format specification, the keys that one
    [KeyFlattener] returns are pairwise distinct, whatever the field names
    and conversions are and in whatever order the calls come. *)
Theorem flatKey_distinct (calls : list call) :
  Forall (fun x : call => no_spec x.1.2) calls ->
  NoDup (flatKey_run newKeyFlattener calls).
Proof. intros Hcalls. by apply flatKey_run_fresh. Qed.

Lemma flatKey_distinct_witness :
  Forall (fun x : call => no_spec x.1.2)
    [(Some "x", Some "", None); (Some "x!s", None, Some "s");
     (Some "x", Some "", None); (Some "y", Some "", Some "r")] /\
  NoDup (flatKey_run newKeyFlattener
    [(Some "x", Some "", None); (Some "x!s", None, Some "s");
     (Some "x", Some "", None); (Some "y", Some "", Some "r")]).
Proof.
  assert (Hcalls : Forall (fun x : call => no_spec x.1.2)
    [(Some "x", Some "", None); (Some "x!s", None, Some "s");
     (Some "x", Some "", None); (Some "y", Some "", Some "r")]).
  { repeat (constructor; [unfold no_spec; cbn; auto|]). constructor. }
  split; [exact Hcalls | exact (flatKey_distinct _ Hcalls)].
Defined.

(** ** The call suffix *)

Lemma substring_prefix_app (a b : string) :
  substring 0 (String.length a) (a +:+ b) = a.
Proof.
  induction a as [|x a IH]; [by destruct b|].
  rewrite app_str_cons. cbn [String.length substring]. by rewrite IH.
Qed.

Lemma substring_suffix_app (a b : string) (m : nat) :
  substring (String.length a) m (a +:+ b) = substring 0 m b.
Proof.
  induction a as [|x a IH]; [done|].
  rewrite app_str_cons. cbn [String.length substring]. by rewrite IH.
Qed.

Lemma endswith_call_suffix (name : string) : endswith (name +:+ "()") "()" = true.
Proof.
  unfold endswith. rewrite length_app_str. cbn [String.length].
  replace (String.length name + 2 - 2) with (String.length name) by lia.
  rewrite substring_suffix_app. cbn [substring].
  rewrite bool_decide_eq_true_2 by done.
  rewrite andb_true_r. apply Nat.leb_le. lia.
Qed.

Lemma drop_last2_call_suffix (name : string) : drop_last2 (name +:+ "()") = name.
Proof.
  unfold drop_last2. rewrite length_app_str. cbn [String.length].
  replace (String.length name + 2 - 2) with (String.length name) by lia.
  apply substring_prefix_app.
Qed.

(** X3. Looking up [name()] in a [CallMapping] looks up [name] in the
    underlying mapping and calls what it finds, with no argument; a missing
    [name] raises [KeyError] for [name], without the suffix.  A key that does
    not end in [()] is looked up as it is and nothing is called. *)
Theorem CallMapping_lookup (submapping : dict) (w : world) :
  (forall name,
     CallMapping submapping (name +:+ "()") w =
       match dict_get submapping name with
       | Some v => py_call v w
       | None => (Raise (KeyError name), w)
       end) /\
  (forall key, endswith key "()" = false ->
     CallMapping submapping key w =
       match dict_get submapping key with
       | Some v => (Ok v, w)
       | None => (Raise (KeyError key), w)
       end).
Proof.
  split.
  - intros name. unfold CallMapping, dict_item.
    rewrite endswith_call_suffix, drop_last2_call_suffix.
    by destruct (dict_get submapping name).
  - intros key Hkey. unfold CallMapping, dict_item. rewrite Hkey.
    by destruct (dict_get submapping key).
Qed.

(** ** The fallback text *)

Section Fallback.
Context `{Externals}.

(** X4. When the [try] block of [formatEvent] raises an [Exception], the
    text returned is ["Unable to format event {event!r}: {error}"] when the
    event can be represented and the exception stringified.  When either of
    the two raises an [Exception], the text is the one that starts with
    ["MESSAGE LOST: unformattable object logged: "], with the representation
    of the exception, the recoverable data of the event and the failure;
    when either raises what is not an [Exception], [formatEvent] raises
    it. *)
Theorem formatEvent_fallback_text (event : dict) (e : exn) (w w1 : world) :
  formatEvent_try event w = (Raise e, w1) ->
  is_Exception e = true ->
  (forall r t w2 w3,
     py_repr (VDict event) w1 = (Ok r, w2) -> str_exn e w2 = (Ok t, w3) ->
     formatEvent event w = (Ok ("Unable to format event " +:+ r +:+ ": " +:+ t), w3)) /\
  (forall e2 w2,
     py_repr (VDict event) w1 = (Raise e2, w2) \/
     (exists r w', py_repr (VDict event) w1 = (Ok r, w') /\
                   str_exn e w' = (Raise e2, w2)) ->
     if is_Exception e2 then
       exists items w3,
         recoverable event w2 = (Ok items, w3) /\
         formatEvent event w =
           (Ok ("MESSAGE LOST: unformattable object logged: " +:+ repr_exn e +:+ nl +:+
                "Recoverable data: " +:+ join ", " items +:+ nl +:+
                "Exception during formatting:" +:+ nl +:+ failure_text e2), w3)
     else formatEvent event w = (Raise e2, w2)).
Proof.
  intros Htry He.
  assert (Hevent : formatEvent event w =
            try_except (unable_text event e) (message_lost event e) w1).
  { unfold formatEvent. unfold try_except at 1. by rewrite Htry, He. }
  rewrite Hevent. unfold try_except. split.
  - intros r t w2 w3 Hrepr Hstr. unfold unable_text.
    by rewrite (bind_ok _ _ _ _ _ Hrepr), (bind_ok _ _ _ _ _ Hstr).
  - intros e2 w2 Hfirst.
    assert (Hunable : unable_text event e w1 = (Raise e2, w2)).
    { unfold unable_text. destruct Hfirst as [Hrepr | (r & w' & Hrepr & Hstr)].
      - by rewrite (bind_raise _ _ _ _ _ Hrepr).
      - by rewrite (bind_ok _ _ _ _ _ Hrepr), (bind_raise _ _ _ _ _ Hstr). }
    rewrite Hunable. destruct (is_Exception e2); [|done].
    destruct (recoverable_total event w2) as (items & w3 & Hitems).
    exists items, w3. split; [done|].
    unfold message_lost. by rewrite (bind_ok _ _ _ _ _ Hitems).
Qed.

End Fallback.

Lemma formatEvent_fallback_text_witness :
  (formatEvent_try Examples.unflattened_key w0 = (Raise (KeyError "x!s:"), w0) /\
   is_Exception (KeyError "x!s:") = true /\
   py_repr (VDict Examples.unflattened_key) w0 =
     (Ok "{'log_format': '{x}', 'log_flattened': {}}", w0) /\
   str_exn (KeyError "x!s:") w0 = (Ok "'x!s:'", w0)) /\
  formatEvent Examples.unflattened_key w0 =
    (Ok ("Unable to format event " +:+ "{'log_format': '{x}', 'log_flattened': {}}" +:+
         ": " +:+ "'x!s:'"), w0).
Proof.
  split; [by repeat split|].
  refine (proj1 (formatEvent_fallback_text Examples.unflattened_key (KeyError "x!s:")
                   w0 w0 _ _)
            "{'log_format': '{x}', 'log_flattened': {}}" "'x!s:'" w0 w0 _ _);
    reflexivity.
Defined.

(** ** Extraction from a flattened event *)

Section Extraction.
Context `{Externals}.

(** X5. On an event that is already flattened, [extractField] does not
    flatten again and resolves nothing: it returns the entry of
    [log_flattened] under the canonical key of the field expression (field
    name, conversion and format specification as [parse] gives them, without
    an occurrence suffix), raises [KeyError] for that key when there is no
    such entry, and leaves the event and the world as they are. *)
Theorem extractField_flattened (field : string) (event fields : dict) (seg : segment)
    (w : world) :
  dict_get event "log_flattened" = Some (VDict fields) ->
  parse ("{" +:+ field +:+ "}") = ([seg], None) ->
  let key := format_name (fieldName seg) +:+ "!" +:+ default "" (conversion seg) +:+
             ":" +:+ default "" (formatSpec seg) in
  extractField field event w =
    match dict_get fields key with
    | Some v => (Ok (v, event), w)
    | None => (Raise (KeyError key), w)
    end.
Proof.
  intros Hflattened Hparse key. unfold extractField. rewrite Hparse.
  cbn [unpack_single]. mnorm. rewrite flatKey_eq.
  change (count newKeyFlattener _) with 0. unfold key_of. rewrite decide_False by lia.
  unfold dict_mem, dict_item. rewrite Hflattened. cbn [negb]. mnorm.
  rewrite Hflattened. mnorm. cbn [py_getitem].
  change (canonicalKey _ _ _) with key.
  by destruct (dict_get fields key).
Qed.

End Extraction.

Lemma extractField_flattened_witness :
  let event := [("log_format", VStr "{x!r}");
                ("log_flattened", VDict [("x!r:", VStr "'a'"); ("x!:", VStr "a")])] in
  (dict_get event "log_flattened" =
     Some (VDict [("x!r:", VStr "'a'"); ("x!:", VStr "a")]) /\
   parse "{x!r}" = ([Segment "" (Some "x") (Some "") (Some "r")], None)) /\
  extractField "x!r" event w0 = (Ok (VStr "'a'", event), w0) /\
  extractField "x" event w0 = (Ok (VStr "a", event), w0) /\
  extractField "y" event w0 = (Raise (KeyError "y!:"), w0).
Proof.
  intros event. split; [by split|].
  split; [|split].
  - exact (extractField_flattened "x!r" event _ _ w0 eq_refl eq_refl).
  - exact (extractField_flattened "x" event _ _ w0 eq_refl eq_refl).
  - exact (extractField_flattened "y" event _ _ w0 eq_refl eq_refl).
Defined.

(** ** What [flattenEvent] leaves behind *)

Lemma dict_set_length_fresh d k v :
  dict_mem k d = false -> List.length (dict_set d k v) = S (List.length d).
Proof.
  unfold dict_mem. induction d as [|[k0 v0] d IH]; [done|]. cbn.
  case_decide; [done|]. intros Hk. cbn. by rewrite IH.
Qed.

Section Flattened_fields.
Context `{Externals}.

Lemma flattenEvent_inv event event' w w' :
  flattenEvent event w = (Ok event', w') ->
  (dict_get event "log_format" = None /\ event' = event /\ w' = w) \/
  (exists format segs kf fields,
     dict_get event "log_format" = Some (VStr format) /\
     parse format = (segs, None) /\
     flattenEvent_loop event segs (newKeyFlattener, []) w = (Ok (kf, fields), w') /\
     event' = dict_set event "log_flattened" (VDict fields)).
Proof.
  unfold flattenEvent, dict_mem, dict_item.
  destruct (dict_get event "log_format") as [v|]; cbn [negb].
  - mnorm. intros Hrun. right.
    destruct v; try discriminate. cbn [parse_value] in Hrun. revert Hrun. mnorm.
    destruct (parse s) as [segs err] eqn:Hparse. intros Hrun.
    apply bind_ok_inv in Hrun as ([kf fields] & w1 & Hloop & Hrun).
    apply bind_ok_inv in Hrun as ([] & w2 & Hpending & [= <- <-]).
    apply pending_ok_inv in Hpending as (-> & _ & ->).
    by exists s, segs, kf, fields.
  - intros [= <- <-]. by left.
Qed.

(** X6. [flattenEvent] changes nothing but the entry [log_flattened]: every
    other key of the event keeps its value.  Without [log_format] the event
    and the world stay exactly as they are; with it, a successful call
    leaves a dictionary under [log_flattened]. *)
Theorem flattenEvent_frame (event event' : dict) (w w' : world) :
  flattenEvent event w = (Ok event', w') ->
  (forall k, k ≠ "log_flattened" -> dict_get event' k = dict_get event k) /\
  (dict_mem "log_format" event = false -> event' = event /\ w' = w) /\
  (dict_mem "log_format" event = true ->
   exists fields, dict_get event' "log_flattened" = Some (VDict fields)).
Proof.
  intros [(Hformat & -> & ->) | (format & segs & kf & fields & Hformat & _ & _ & ->)]
    %flattenEvent_inv; unfold dict_mem; rewrite Hformat.
  - done.
  - split; [|split; [done|]].
    + intros k Hk. by rewrite dict_get_set, decide_False.
    + intros _. exists fields. by rewrite dict_get_set, decide_True.
Qed.

Lemma flattenEvent_step_no_spec event lit f c st :
  flattenEvent_step event (Segment lit f None c) st =
  flattenEvent_step event (Segment lit f (Some "") c) st.
Proof. reflexivity. Qed.

Lemma flattenEvent_step_no_name event seg kf fields w :
  fieldName seg = None -> no_spec (formatSpec seg) -> keys_stale kf fields ->
  flattenEvent_step event seg (kf, fields) w =
    (Raise (AttributeError "'NoneType' object has no attribute 'endswith'"), w).
Proof.
  intros Hname Hspec Hstale. unfold flattenEvent_step.
  rewrite Hname, !flatKey_eq.
  rewrite Hstale; [done | by apply canonicalKey_no_spec_ends_colon | lia].
Qed.

Lemma flattenEvent_step_inv event seg kf fields kf' fields' w w' :
  keys_stale kf fields -> no_spec (formatSpec seg) ->
  flattenEvent_step event seg (kf, fields) w = (Ok (kf', fields'), w') ->
  exists fn v t,
    fieldName seg = Some fn /\
    field_text event fn (conversion seg) w = (Ok (v, t), w') /\
    kf' = after_reference kf fn (conversion seg) /\
    fields' = dict_set (dict_set fields (flattenedKey_of kf fn (conversion seg)) (VStr t))
                       (structuredKey_of kf fn) v.
Proof.
  intros Hstale Hspec Hstep.
  destruct (fieldName seg) as [fn|] eqn:Hname; last first.
  { by rewrite flattenEvent_step_no_name in Hstep. }
  assert (Hfresh : flattenEvent_step event seg (kf, fields) w =
    (let! (v, t) := field_text event fn (conversion seg) in
     ret (after_reference kf fn (conversion seg),
          dict_set (dict_set fields (flattenedKey_of kf fn (conversion seg)) (VStr t))
                   (structuredKey_of kf fn) v)) w).
  { destruct seg as [lit f s c]. cbn [fieldName formatSpec conversion] in *. subst f.
    destruct Hspec as [-> | ->]; [rewrite flattenEvent_step_no_spec|];
      by apply flattenEvent_step_fresh. }
  rewrite Hfresh in Hstep.
  apply bind_ok_inv in Hstep as ([v t] & w1 & Htext & [= <- <- <-]).
  by exists fn, v, t.
Qed.

Lemma flattenEvent_loop_inv event segs :
  Forall (fun seg => no_spec (formatSpec seg)) segs ->
  forall kf fields kf' fields' w w',
    keys_stale kf fields ->
    flattenEvent_loop event segs (kf, fields) w = (Ok (kf', fields'), w') ->
    Forall (fun seg => fieldName seg ≠ None) segs /\
    List.length fields' = List.length fields + 2 * List.length segs.
Proof.
  induction 1 as [|seg segs Hspec _ IH]; intros kf fields kf' fields' w w' Hstale Hloop.
  - cbn in Hloop. injection Hloop as <- <- <-. split; [constructor | cbn; lia].
  - cbn [flattenEvent_loop] in Hloop.
    apply bind_ok_inv in Hloop as ([kf1 fields1] & w1 & Hstep & Hloop).
    apply flattenEvent_step_inv in Hstep
      as (fn & v & t & Hname & _ & -> & ->); [|done..].
    apply IH in Hloop as [Hnames Hlength]; [|by apply keys_stale_step].
    split; [constructor; [by rewrite Hname | done]|].
    rewrite Hlength, !dict_set_length_fresh; [cbn [List.length]; lia|..].
    + apply Hstale; [apply canonicalKey_ends_colon | lia].
    + rewrite dict_mem_set, decide_False by apply keys_differ.
      apply Hstale; [apply canonicalKey_ends_colon | lia].
Qed.

Lemma dict_set_fresh d k v :
  dict_mem k d = false -> dict_set d k v = d ++ [(k, v)].
Proof.
  unfold dict_mem. induction d as [|[k0 v0] d IH]; [done|]. cbn.
  case_decide; [done|]. intros Hk. by rewrite IH.
Qed.

Lemma flatKey_run_reference kf seg fn calls :
  fieldName seg = Some fn -> no_spec (formatSpec seg) ->
  flatKey_run kf
    ((fieldName seg, formatSpec seg, Some (conversion_of (conversion seg))) ::
     (fieldName seg, formatSpec seg, Some "") :: calls)
  = flattenedKey_of kf fn (conversion seg) :: structuredKey_of kf fn ::
    flatKey_run (after_reference kf fn (conversion seg)) calls.
Proof.
  intros -> Hspec. rewrite !flatKey_run_cons, !flatKey_eq. cbn [fst snd].
  assert (Hkey : forall c, canonicalKey (Some fn) (formatSpec seg) c =
                           canonicalKey (Some fn) (Some "") c)
    by (intros c; by destruct Hspec as [-> | ->]).
  rewrite !Hkey. unfold flattenedKey_of, structuredKey_of, after_reference.
  rewrite count_insert, count_eta, decide_False; [done|].
  apply canonicalKey_kinds, conversion_of_cases.
Qed.

Lemma flattenEvent_loop_entries event segs :
  Forall (fun seg => no_spec (formatSpec seg)) segs ->
  forall kf fields kf' fields' w w',
    keys_stale kf fields ->
    flattenEvent_loop event segs (kf, fields) w = (Ok (kf', fields'), w') ->
    exists vts,
      resolved event segs w vts w' /\
      fields' = fields ++ zip (flatKey_run kf (flatKey_calls_of segs)) (entries_of vts).
Proof.
  induction 1 as [|seg segs Hspec _ IH]; intros kf fields kf' fields' w w' Hstale Hloop.
  - cbn in Hloop. injection Hloop as <- <- <-. exists []. split; [constructor|].
    by rewrite app_nil_r.
  - cbn [flattenEvent_loop] in Hloop.
    apply bind_ok_inv in Hloop as ([kf1 fields1] & w1 & Hstep & Hloop).
    apply flattenEvent_step_inv in Hstep
      as (fn & v & t & Hname & Htext & -> & ->); [|done..].
    apply IH in Hloop as (vts & Hresolved & ->); [|by apply keys_stale_step].
    exists ((v, t) :: vts). split; [by econstructor|].
    cbn [flatKey_calls_of flat_map entries_of app fst snd].
    fold (flatKey_calls_of segs). fold (entries_of vts).
    rewrite (flatKey_run_reference kf seg fn) by done. cbn [zip zip_with].
    rewrite !dict_set_fresh.
    + by rewrite <- !app_assoc.
    + apply Hstale; [apply canonicalKey_ends_colon | lia].
    + rewrite dict_mem_set, decide_False by apply keys_differ.
      apply Hstale; [apply canonicalKey_ends_colon | lia].
Qed.

(** X7. When [flattenEvent] succeeds on a template without format
    specifications, the template was parsed to its end and every item of it
    has a field name.  [log_flattened] then holds exactly two entries for
    each reference of the template, repeated references included, in the
    order of the template: under the key that [flatKey] returns for the
    field with the conversion [s] or [r], the text of [str] or [repr] of the
    value of the field, and under the key that [flatKey] returns for the
    field with the empty conversion, that value itself.  The value is the one
    that the field had, and the text the one it was given, when
    [flattenEvent] reached the reference. *)
Theorem flattenEvent_two_entries (event event' : dict) (format : string)
    (segs : list segment) (err : option exn) (w w' : world) :
  dict_get event "log_format" = Some (VStr format) ->
  parse format = (segs, err) ->
  Forall (fun seg => no_spec (formatSpec seg)) segs ->
  flattenEvent event w = (Ok event', w') ->
  err = None /\
  Forall (fun seg => fieldName seg ≠ None) segs /\
  exists fields vts,
    dict_get event' "log_flattened" = Some (VDict fields) /\
    List.length fields = 2 * List.length segs /\
    resolved event segs w vts w' /\
    fields = zip (flatKey_run newKeyFlattener (flatKey_calls_of segs)) (entries_of vts).
Proof.
  intros Hformat Hparse Hspecs
    [(Hnone & _) | (format' & segs' & kf & fields & Hformat' & Hparse' & Hloop & ->)]
    %flattenEvent_inv; [congruence|].
  rewrite Hformat in Hformat'. injection Hformat' as <-.
  rewrite Hparse in Hparse'. injection Hparse' as <- ->.
  pose proof Hloop as Hentries.
  apply flattenEvent_loop_inv in Hloop as [Hnames Hlength]; [|done..].
  apply flattenEvent_loop_entries in Hentries as (vts & Hresolved & Hfields); [|done..].
  split; [done|]. split; [done|].
  exists fields, vts. by rewrite dict_get_set, decide_True.
Qed.

(** X8. A template whose first item has no field name, as the template of a
    message without any field has, cannot be flattened: [flattenEvent] raises
    [AttributeError] and leaves the world as it is. *)
Theorem flattenEvent_plain_message_raises (event : dict) (format : string)
    (seg : segment) (segs : list segment) (err : option exn) (w : world) :
  dict_get event "log_format" = Some (VStr format) ->
  parse format = (seg :: segs, err) ->
  fieldName seg = None ->
  no_spec (formatSpec seg) ->
  flattenEvent event w =
    (Raise (AttributeError "'NoneType' object has no attribute 'endswith'"), w).
Proof.
  intros Hformat Hparse Hname Hspec.
  unfold flattenEvent, dict_mem, dict_item. rewrite Hformat. cbn [negb]. mnorm.
  cbn [parse_value]. rewrite Hparse. mnorm. cbn [flattenEvent_loop]. mnorm.
  erewrite bind_raise; [done|]. by apply flattenEvent_step_no_name.
Qed.

End Flattened_fields.

Lemma flattenEvent_frame_witness :
  let event' :=
    Examples.repeated ++
    [("log_flattened",
      VDict [("x!s:", VStr "5"); ("x!:", VInt 5); ("x!s:/2", VStr "5");
             ("x!:/2", VInt 5); ("x!r:", VStr "5"); ("x!:/3", VInt 5)])] in
  flattenEvent Examples.repeated w0 = (Ok event', w0) /\
  (forall k, k ≠ "log_flattened" -> dict_get event' k = dict_get Examples.repeated k) /\
  exists fields, dict_get event' "log_flattened" = Some (VDict fields).
Proof.
  intros event'. split; [reflexivity|].
  destruct (flattenEvent_frame Examples.repeated event' w0 w0) as (Hkeys & _ & Hfields);
    [reflexivity|].
  split; [exact Hkeys | by apply Hfields].
Defined.

Lemma flattenEvent_two_entries_witness :
  let fields :=
    [("x!s:", VStr "5"); ("x!:", VInt 5); ("x!s:/2", VStr "5");
     ("x!:/2", VInt 5); ("x!r:", VStr "5"); ("x!:/3", VInt 5)] in
  let event' := Examples.repeated ++ [("log_flattened", VDict fields)] in
  flattenEvent Examples.repeated w0 = (Ok event', w0) /\
  exists fields' vts,
    dict_get event' "log_flattened" = Some (VDict fields') /\
    List.length fields' = 2 * 3 /\
    resolved Examples.repeated (parse "{x} {x} {x!r}").1 w0 vts w0 /\
    fields' = zip (flatKey_run newKeyFlattener (flatKey_calls_of (parse "{x} {x} {x!r}").1))
                  (entries_of vts).
Proof.
  intros fields event'. split; [reflexivity|].
  destruct (flattenEvent_two_entries Examples.repeated event' "{x} {x} {x!r}"
              (parse "{x} {x} {x!r}").1 None w0 w0)
    as (_ & _ & fields' & vts & Hfields); try reflexivity.
  - repeat (constructor; [unfold no_spec; cbn; auto|]). constructor.
  - by exists fields', vts.
Defined.

Lemma flattenEvent_plain_message_raises_witness :
  parse "Hello!" = ([Segment "Hello!" None None None], None) /\
  flattenEvent [("log_format", VStr "Hello!")] w0 =
    (Raise (AttributeError "'NoneType' object has no attribute 'endswith'"), w0).
Proof.
  split; [reflexivity|].
  apply (flattenEvent_plain_message_raises _ "Hello!" (Segment "Hello!" None None None)
           [] None w0); try reflexivity.
  by left.
Defined.

Lemma Forall_dict_set (P : string * value -> Prop) d k v :
  Forall P d -> P (k, v) -> Forall P (dict_set d k v).
Proof.
  intros Hd Hkv. induction Hd as [|[k0 v0] d Hx Hd IH]; cbn.
  - by repeat constructor.
  - case_decide; constructor; done.
Qed.

Lemma dict_set_set d k x y : dict_set (dict_set d k x) k y = dict_set d k y.
Proof.
  induction d as [|[k0 v0] d IH]; cbn.
  - by rewrite decide_True.
  - case_decide; cbn.
    + by rewrite decide_True.
    + rewrite decide_False by done. by rewrite IH.
Qed.

Lemma structuredKey_not_stringified kf fn : ~ stringified_key (structuredKey_of kf fn).
Proof.
  intros (fn' & cv & n & Hcv & Heq). unfold structuredKey_of in Heq.
  apply key_of_inj in Heq as [Heq _]; [|apply canonicalKey_ends_colon..].
  symmetry in Heq. by apply canonicalKey_kinds in Heq.
Qed.

Section Snapshot.
Context `{Externals}.

Lemma flattenEvent_loop_texts event segs :
  Forall (fun seg => no_spec (formatSpec seg)) segs ->
  forall kf fields kf' fields' w w',
    keys_stale kf fields ->
    Forall (fun kv => stringified_key kv.1 -> exists t, kv.2 = VStr t) fields ->
    flattenEvent_loop event segs (kf, fields) w = (Ok (kf', fields'), w') ->
    Forall (fun kv => stringified_key kv.1 -> exists t, kv.2 = VStr t) fields'.
Proof.
  induction 1 as [|seg segs Hspec _ IH];
    intros kf fields kf' fields' w w' Hstale Htexts Hloop.
  - cbn in Hloop. by injection Hloop as <- <- <-.
  - cbn [flattenEvent_loop] in Hloop.
    apply bind_ok_inv in Hloop as ([kf1 fields1] & w1 & Hstep & Hloop).
    apply flattenEvent_step_inv in Hstep
      as (fn & v & t & Hname & _ & -> & ->); [|done..].
    eapply IH; [by apply keys_stale_step | | exact Hloop].
    apply Forall_dict_set; [apply Forall_dict_set; [done|]|].
    + intros _. by exists t.
    + intros Hkey. by apply structuredKey_not_stringified in Hkey.
Qed.

(** X9. In the snapshot that a successful [flattenEvent] makes of a template
    without format specifications, every entry under a stringified key (a
    key with the conversion [s] or [r]) is a text: what [flatFormat] and
    [extractField] with a conversion read no longer depends on the objects
    of the event. *)
Theorem flattenEvent_stringified_entries (event event' : dict) (format : string)
    (segs : list segment) (err : option exn) (w w' : world) :
  dict_get event "log_format" = Some (VStr format) ->
  parse format = (segs, err) ->
  Forall (fun seg => no_spec (formatSpec seg)) segs ->
  flattenEvent event w = (Ok event', w') ->
  exists fields,
    dict_get event' "log_flattened" = Some (VDict fields) /\
    forall k v, dict_get fields k = Some v -> stringified_key k -> exists t, v = VStr t.
Proof.
  intros Hformat Hparse Hspecs
    [(Hnone & _) | (format' & segs' & kf & fields & Hformat' & Hparse' & Hloop & ->)]
    %flattenEvent_inv; [congruence|].
  rewrite Hformat in Hformat'. injection Hformat' as <-.
  rewrite Hparse in Hparse'. injection Hparse' as <- ->.
  apply flattenEvent_loop_texts in Hloop; [|done..].
  exists fields. split; [by rewrite dict_get_set, decide_True|].
  intros k v Hk Hkey. clear -Hloop Hk Hkey.
  induction Hloop as [|[k0 v0] fields Hx _ IH]; [done|].
  cbn in Hk. case_decide; [simplify_eq; by apply Hx | by apply IH].
Qed.

Lemma get_field_frame event fn X w :
  (forall first rest, field_name_split fn = Ok (IStr first, rest) ->
                      first ≠ "log_flattened") ->
  get_field fn (dict_item (dict_set event "log_flattened" X)) w =
  get_field fn (dict_item event) w.
Proof.
  intros Hfirst. unfold get_field.
  destruct (field_name_split fn) as [[first [rest err]]|e]; [|done].
  cbn [lift]. mnorm. destruct first as [n|k]; [done|]. cbn [get_value].
  apply bind_ext_l. unfold dict_item.
  by rewrite dict_get_set, decide_False by (intros Heq; by eapply Hfirst).
Qed.

Lemma flattenEvent_step_frame event seg X st w :
  avoids_snapshot seg ->
  flattenEvent_step (dict_set event "log_flattened" X) seg st w =
  flattenEvent_step event seg st w.
Proof.
  intros Havoids. unfold flattenEvent_step. destruct st as [kf fields].
  destruct (flatKey kf _ _ _) as [flattenedKey kf1].
  destruct (flatKey kf1 _ _ _) as [structuredKey kf2].
  destruct (dict_mem flattenedKey fields); [done|].
  destruct (fieldName seg) as [fn|] eqn:Hname; [|done].
  apply bind_ext_l, get_field_frame. intros first rest. by apply Havoids.
Qed.

Lemma flattenEvent_loop_frame event segs X :
  Forall avoids_snapshot segs ->
  forall st w,
    flattenEvent_loop (dict_set event "log_flattened" X) segs st w =
    flattenEvent_loop event segs st w.
Proof.
  induction 1 as [|seg segs Hseg _ IH]; intros st w; [done|].
  cbn [flattenEvent_loop].
  rewrite (bind_ext_l _ _ _ _ (flattenEvent_step_frame event seg X st w Hseg)).
  apply bind_ext. intros st' w'. apply IH.
Qed.

(** X10. Flattening an event again discards the snapshot it carries: as long
    as the template does not refer to [log_flattened] itself, [flattenEvent]
    gives the same result, in the same world, whatever is stored under
    [log_flattened] beforehand. *)
Theorem flattenEvent_discards_snapshot (event : dict) (format : string)
    (X : value) (w : world) :
  dict_get event "log_format" = Some (VStr format) ->
  Forall avoids_snapshot (parse format).1 ->
  flattenEvent (dict_set event "log_flattened" X) w = flattenEvent event w.
Proof.
  intros Hformat Havoids. unfold flattenEvent, dict_mem, dict_item.
  rewrite dict_get_set, decide_False by done. rewrite Hformat. cbn [negb]. mnorm.
  cbn [parse_value]. mnorm. destruct (parse format) as [segs err]. cbn [fst] in Havoids.
  mnorm. rewrite (bind_ext_l _ _ _ _ (flattenEvent_loop_frame event segs X Havoids _ w)).
  apply bind_ext. intros [kf fields] w1. apply bind_ext. intros [] w2.
  by rewrite dict_set_set.
Qed.

End Snapshot.

Lemma flattenEvent_stringified_entries_witness :
  exists event' fields,
    flattenEvent Examples.repeated w0 = (Ok event', w0) /\
    dict_get event' "log_flattened" = Some (VDict fields) /\
    forall k v, dict_get fields k = Some v -> stringified_key k -> exists t, v = VStr t.
Proof.
  eexists. 
  destruct (flattenEvent_stringified_entries Examples.repeated
              (Examples.repeated ++
               [("log_flattened",
                 VDict [("x!s:", VStr "5"); ("x!:", VInt 5); ("x!s:/2", VStr "5");
                        ("x!:/2", VInt 5); ("x!r:", VStr "5"); ("x!:/3", VInt 5)])])
              "{x} {x} {x!r}" (parse "{x} {x} {x!r}").1 None w0 w0)
    as (fields & Hfields & Htexts); try reflexivity.
  - repeat (constructor; [unfold no_spec; cbn; auto|]). constructor.
  - exists fields. split; [reflexivity|]. by split.
Defined.

Lemma avoids_snapshot_x (lit : string) (conv : option string) :
  avoids_snapshot (Segment lit (Some "x") (Some "") conv).
Proof. intros fn first rest [= <-] [= <- <-]. discriminate. Defined.

Lemma flattenEvent_discards_snapshot_witness :
  flattenEvent (dict_set Examples.repeated "log_flattened" (VDict [("x!s:", VStr "4")])) w0
  = flattenEvent Examples.repeated w0.
Proof.
  apply (flattenEvent_discards_snapshot Examples.repeated "{x} {x} {x!r}").
  - reflexivity.
  - repeat (constructor; [apply avoids_snapshot_x|]). constructor.
Defined.

(** ** Live rendering *)

Section Live.
Context `{Externals}.

Lemma _vformat_loop_literals expand kwargs segs r auto w :
  Forall (fun seg => fieldName seg = None) segs ->
  _vformat_loop expand kwargs segs r auto w = (Ok (r +:+ literals segs, auto), w).
Proof.
  intros Hsegs. revert r.
  induction Hsegs as [|seg segs Hname _ IH]; intros r; cbn [_vformat_loop literals].
  - by rewrite app_str_nil_r.
  - by rewrite Hname, IH, app_str_assoc.
Qed.

(** X11. An event that is not flattened and whose template has no field
    reference is rendered as the literal text of the template: no field of
    the event is looked up, nothing is called and the world stays as it
    is. *)
Theorem formatEvent_plain_message (event : dict) (format : string)
    (segs : list segment) (w : world) :
  dict_mem "log_flattened" event = false ->
  dict_get event "log_format" = Some (VStr format) ->
  parse format = (segs, None) ->
  Forall (fun seg => fieldName seg = None) segs ->
  formatEvent event w = (Ok (literals segs), w).
Proof.
  intros Hunflattened Hformat Hparse Hsegs.
  unfold formatEvent, try_except, formatEvent_try, dict_get_default.
  rewrite Hunflattened, Hformat. cbn [default from_option id].
  unfold formatWithCall, vformat. cbn [_vformat]. rewrite Hparse. mnorm.
  by rewrite (bind_ok _ _ _ _ _ (_vformat_loop_literals _ _ segs "" _ w Hsegs)).
Qed.

Variable event : dict.
Variables (fn key : string) (conv : option string) (l : nat).
Hypothesis call_suffix : endswith fn "()" = true.
Hypothesis plain_name : field_name_split (drop_last2 fn) = Ok (IStr key, ([], None)).
Hypothesis callable : dict_get event key = Some (VNext l).
Hypothesis alike : resolves_alike fn.
Hypothesis known : known_conversion conv.

Lemma field_value_next w :
  field_value event fn w = (Ok (VInt (Z.of_nat (cell w l))), bump w l).
Proof.
  unfold field_value, get_field, dict_item.
  rewrite call_suffix, plain_name. cbn [lift]. mnorm. cbn [get_value].
  rewrite callable. mnorm. cbn [resolve]. mnorm. cbn [pending]. by mnorm.
Qed.

Lemma _vformat_loop_calls expand segs :
  (forall auto w, expand (Some "") auto w = (Ok ("", auto), w)) ->
  Forall (fun seg => fieldName seg = Some fn /\ formatSpec seg = Some "" /\
                     conversion seg = conv) segs ->
  forall r auto w,
    exists s w',
      _vformat_loop expand (CallMapping event) segs r auto w = (Ok (s, auto), w') /\
      cell w' l = cell w l + List.length segs.
Proof.
  intros Hexpand. induction 1 as [|seg segs (Hfn & Hspec & Hconv) _ IH]; intros r auto w.
  - exists r, w. split; [done | cbn; lia].
  - destruct (field_text_next event fn key conv l call_suffix plain_name callable w)
      as [t Htext].
    destruct (IH ((r +:+ literalText seg) +:+ t) auto (bump w l)) as (s & w' & Hloop & Hcell).
    exists s, w'. split.
    + cbn [_vformat_loop]. rewrite Hfn, Hspec, Hconv.
      rewrite (live_field event expand Hexpand); [|done|done|].
      * by rewrite (bind_ok _ _ _ _ _ Htext).
      * intros _ v w1. rewrite field_value_next. by intros [= <- _] w2.
    + rewrite Hcell, cell_bump. cbn [List.length]. lia.
Qed.

(** X12. Live rendering calls a call-suffixed field once for each reference
    of the template: a callable that the template references [n] times, with
    no format specification, is called [n] times by [formatWithCall]. *)
Theorem formatWithCall_calls_each_reference (format : string) (segs : list segment)
    (w : world) :
  parse "" = ([], None) ->
  parse format = (segs, None) ->
  Forall (fun seg => fieldName seg = Some fn /\ formatSpec seg = Some "" /\
                     conversion seg = conv) segs ->
  exists s w',
    formatWithCall format event w = (Ok s, w') /\
    cell w' l = cell w l + List.length segs.
Proof.
  intros Hempty Hparse Hsegs.
  assert (Hexpand : forall auto w,
             _vformat 2 (CallMapping event) (Some "") auto w = (Ok ("", auto), w)).
  { intros auto w1. cbn [_vformat]. by rewrite Hempty. }
  destruct (_vformat_loop_calls _ segs Hexpand Hsegs "" (Some 0) w)
    as (s & w' & Hloop & Hcell).
  exists s, w'. split; [|done].
  unfold formatWithCall, vformat. cbn [_vformat]. rewrite Hparse. mnorm.
  by rewrite (bind_ok _ _ _ _ _ Hloop).
Qed.

End Live.

Lemma formatEvent_plain_message_witness :
  (dict_mem "log_flattened" [("log_format", VStr "Hello!"); ("x", VNext 0)] = false /\
   parse "Hello!" = ([Segment "Hello!" None None None], None)) /\
  formatEvent [("log_format", VStr "Hello!"); ("x", VNext 0)] w0 = (Ok "Hello!", w0).
Proof.
  split; [by split|].
  apply (formatEvent_plain_message _ "Hello!" [Segment "Hello!" None None None] w0);
    try reflexivity.
  by repeat constructor.
Defined.

Lemma formatWithCall_calls_each_reference_witness :
  exists s w',
    formatWithCall "{f()} {f()}" Examples.counted w0 = (Ok s, w') /\
    cell w' 0 = cell w0 0 + 2.
Proof.
  refine (formatWithCall_calls_each_reference Examples.counted "f()" "f" None 0
            _ _ _ _ _ "{f()} {f()}"
            [Segment "" (Some "f()") (Some "") None;
             Segment " " (Some "f()") (Some "") None] w0 _ _ _);
    try reflexivity.
  - repeat split; done.
  - by left.
  - by repeat constructor.
Defined.

(** ** The classic log line, further *)

Lemma indent_continuation_app (a b : string) :
  indent_continuation (a +:+ b) = indent_continuation a +:+ indent_continuation b.
Proof.
  induction a as [|c a IH]; [done|].
  rewrite app_str_cons. cbn [indent_continuation].
  case_decide; by rewrite IH.
Qed.

Lemma indent_continuation_tab (s a b : string) :
  indent_continuation s = a +:+ nl +:+ b -> exists b', b = tab +:+ b'.
Proof.
  revert a b. induction s as [|c s IH]; intros a b Heq.
  - destruct a; discriminate.
  - cbn [indent_continuation] in Heq. case_decide as Hc.
    + destruct a as [|c0 a].
      { change ("" +:+ nl +:+ b) with (String "010"%char b) in Heq.
        injection Heq as _ Heq. exists (indent_continuation s). by subst b. }
      rewrite (app_str_cons c0 a) in Heq. injection Heq as _ Heq.
      destruct a as [|c1 a]; [discriminate|].
      rewrite (app_str_cons c1 a) in Heq. injection Heq as _ Heq. by eapply IH.
    + destruct a as [|c0 a]; [injection Heq as Heq _; by subst|].
      rewrite (app_str_cons c0 a) in Heq. injection Heq as _ Heq. by eapply IH.
Qed.

Section Classic_edges.
Context `{Externals}.

(** X13. Every line that [formatEventAsClassicLogText] returns consists of a
    head (time stamp and system), the message of [formatEvent] with its
    newlines replaced, and a final newline; the message is not empty, and
    inside it every newline is immediately followed by a tab, so that a
    message of several lines never starts a log line of its own.  The
    replacement distributes over concatenation. *)
Theorem classic_line_continuations (event : dict) (formatTime_ : value -> M value)
    (line : string) (w w' : world) :
  formatEventAsClassicLogText event formatTime_ w = (Ok (Some line), w') ->
  exists text w1 head,
    formatEvent event w = (Ok text, w1) /\ text ≠ "" /\
    line = head +:+ indent_continuation text +:+ nl /\
    (forall a b, indent_continuation text = a +:+ nl +:+ b ->
                 exists b', b = tab +:+ b') /\
    (forall a b, text = a +:+ b ->
                 indent_continuation text = indent_continuation a +:+ indent_continuation b).
Proof.
  unfold formatEventAsClassicLogText. intros Hrun.
  apply bind_ok_inv in Hrun as (text & w1 & Hevent & Hrun).
  case_decide as Htext; [discriminate|].
  apply bind_ok_inv in Hrun as (timeStamp & w2 & _ & Hrun).
  apply bind_ok_inv in Hrun as (system & w3 & _ & Hrun).
  apply bind_ok_inv in Hrun as (ts & w4 & _ & Hrun).
  injection Hrun as <- _.
  exists text, w1, (ts +:+ " [" +:+ system +:+ "] ").
  split; [done|]. split; [done|]. split; [by rewrite !app_str_assoc|]. split.
  - apply indent_continuation_tab.
  - intros a b ->. apply indent_continuation_app.
Qed.

(** X14. An event whose message text is empty gives no classic log line:
    [formatEventAsClassicLogText] returns [None] and does not call the time
    formatter. This is the case of every event that is not flattened and has
    no [log_format] (or [None] as its [log_format]), whatever its other
    entries are; such an event leaves the world as it is. *)
Theorem classic_no_message (event : dict) (formatTime_ : value -> M value)
    (w w1 : world) :
  formatEvent event w = (Ok "", w1) \/
  (dict_mem "log_flattened" event = false /\
   dict_get_default event "log_format" VNone = VNone /\ w1 = w) ->
  formatEventAsClassicLogText event formatTime_ w = (Ok None, w1).
Proof.
  intros Hevent.
  assert (Hempty : formatEvent event w = (Ok "", w1)).
  { destruct Hevent as [Hevent | (Hunflattened & Hformat & ->)]; [done|].
    unfold formatEvent, try_except, formatEvent_try.
    by rewrite Hunflattened, Hformat. }
  unfold formatEventAsClassicLogText. by rewrite (bind_ok _ _ _ _ _ Hempty).
Qed.

(** X15. [formatEventAsClassicLogText] is not protected as [formatEvent] is:
    with a message to print, an exception raised by the time formatter
    escapes, and so does the exception of [level.name] when the level has no
    name and no [log_system] is set. *)
Theorem classic_exceptions_escape (event : dict) (formatTime_ : value -> M value)
    (text : string) (w w1 : world) :
  formatEvent event w = (Ok text, w1) ->
  text ≠ "" ->
  (forall e w2,
     formatTime_ (dict_get_default event "log_time" VNone) w1 = (Raise e, w2) ->
     formatEventAsClassicLogText event formatTime_ w = (Raise e, w2)) /\
  (forall timeStamp level e w2 w3,
     formatTime_ (dict_get_default event "log_time" VNone) w1 = (Ok timeStamp, w2) ->
     dict_get_default event "log_system" VNone = VNone ->
     dict_get event "log_level" = Some level -> level ≠ VNone ->
     py_getattr level "name" w2 = (Raise e, w3) ->
     formatEventAsClassicLogText event formatTime_ w = (Raise e, w3)).
Proof.
  intros Hevent Htext. split.
  - intros e w2 Htime. unfold formatEventAsClassicLogText.
    rewrite (bind_ok _ _ _ _ _ Hevent), decide_False by done.
    by rewrite (bind_raise _ _ _ _ _ Htime).
  - intros timeStamp level e w2 w3 Htime Hsystem Hlevel Hnone Hname.
    unfold formatEventAsClassicLogText.
    rewrite (bind_ok _ _ _ _ _ Hevent), decide_False by done.
    rewrite (bind_ok _ _ _ _ _ Htime). cbv zeta. rewrite Hsystem.
    assert (Hget : dict_get_default event "log_level" VNone = level)
      by (unfold dict_get_default; by rewrite Hlevel).
    rewrite Hget.
    erewrite bind_raise; [done|]. erewrite bind_raise; [done|].
    by destruct level.
Qed.

End Classic_edges.

Lemma classic_line_continuations_witness :
  let event := [("log_format", VStr "{a}"); ("a", VStr ("one" +:+ nl +:+ "two"))] in
  formatEventAsClassicLogText_default event w0 =
    (Ok (Some ("- [-#-] one" +:+ nl +:+ tab +:+ "two" +:+ nl)), w0) /\
  exists text w1 head,
    formatEvent event w0 = (Ok text, w1) /\ text ≠ "" /\
    "- [-#-] one" +:+ nl +:+ tab +:+ "two" +:+ nl =
      head +:+ indent_continuation text +:+ nl /\
    (forall a b, indent_continuation text = a +:+ nl +:+ b ->
                 exists b', b = tab +:+ b') /\
    (forall a b, text = a +:+ b ->
                 indent_continuation text = indent_continuation a +:+ indent_continuation b).
Proof.
  intros event. split; [reflexivity|].
  refine (classic_line_continuations event (fun when => formatTime when None None)
            _ w0 w0 _).
  reflexivity.
Defined.

Lemma classic_no_message_witness :
  let event := [("log_system", VStr "sys"); ("log_time", VInt 0); ("log_format", VNone)] in
  (dict_mem "log_flattened" event = false /\
   dict_get_default event "log_format" VNone = VNone) /\
  formatEventAsClassicLogText event (fun _ => raise (ValueError "no clock")) w0
    = (Ok None, w0).
Proof.
  intros event. split; [by split|].
  apply (classic_no_message event (fun _ => raise (ValueError "no clock")) w0 w0).
  right. by repeat split.
Defined.

Lemma classic_exceptions_escape_witness :
  let failing := fun _ : value => raise (A := value) (ValueError "no clock") in
  (formatEvent Examples.hello w0 = (Ok "Hello!", w0) /\ "Hello!" ≠ "" /\
   failing (dict_get_default Examples.hello "log_time" VNone) w0 =
     (Raise (ValueError "no clock"), w0)) /\
  formatEventAsClassicLogText Examples.hello failing w0 =
    (Raise (ValueError "no clock"), w0).
Proof.
  intros failing. split; [by repeat split|].
  refine (proj1 (classic_exceptions_escape Examples.hello failing "Hello!" w0 w0 _ _)
            _ _ _); [reflexivity | discriminate | reflexivity].
Defined.

(** ** Extraction, repeated *)

Lemma py_getitem_pure (v : value) (i : index) (x : value) (w w' : world) :
  py_getitem v i w = (Ok x, w') -> forall w1, py_getitem v i w1 = (Ok x, w1).
Proof.
  unfold py_getitem. intros Hget w1. revert Hget.
  repeat case_match; unfold ret, raise; intros Hget; try discriminate;
    by injection Hget as -> _.
Qed.

Section Extraction_repeated.
Context `{Externals}.

(** X16. A successful [extractField] leaves the event flattened, and the same
    extraction from the event it leaves returns the same value again in any
    later world, without changing the event or the world: the callables of
    the event are called by the first extraction only. *)
Theorem extractField_repeatable (field : string) (event event' : dict) (v : value)
    (w w' : world) :
  extractField field event w = (Ok (v, event'), w') ->
  dict_mem "log_flattened" event' = true /\
  forall w1, extractField field event' w1 = (Ok (v, event'), w1).
Proof.
  unfold extractField.
  destruct (parse ("{" +:+ field +:+ "}")) as [[|seg [|seg' segs]] [e|]];
    cbn [unpack_single]; try discriminate.
  mnorm. destruct (flatKey _ _ _ _) as [key kf] eqn:Hkey.
  intros Hrun.
  apply bind_ok_inv in Hrun as (event1 & w1 & Hflatten & Hrun).
  apply bind_ok_inv in Hrun as (flattened & w2 & Hitem & Hrun).
  apply bind_ok_inv in Hrun as (x & w3 & Hget & Hrun).
  injection Hrun as -> -> ->.
  unfold dict_item in Hitem.
  destruct (dict_get event' "log_flattened") as [fl|] eqn:Hfl; [|discriminate].
  injection Hitem as -> ->.
  assert (Hmem : dict_mem "log_flattened" event' = true)
    by (unfold dict_mem; by rewrite Hfl).
  split; [done|]. intros w4. mnorm. rewrite Hkey, Hmem. cbn [negb]. mnorm.
  unfold dict_item. rewrite Hfl. mnorm.
  by rewrite (bind_ok _ _ _ _ _ (py_getitem_pure _ _ _ _ _ Hget w4)).
Qed.

End Extraction_repeated.

Lemma extractField_repeatable_witness :
  let event' :=
    [("log_format", VStr "{f()} {f()}"); ("f", VNext 0);
     ("log_flattened",
      VDict [("f()!s:", VStr "0"); ("f()!:", VInt 0);
             ("f()!s:/2", VStr "1"); ("f()!:/2", VInt 1)])] in
  let w' := bump (bump w0 0) 0 in
  extractField "f()" Examples.counted w0 = (Ok (VInt 0, event'), w') /\
  cell w' 0 = 2 /\
  extractField "f()" event' w' = (Ok (VInt 0, event'), w').
Proof.
  intros event' w'.
  split; [reflexivity|]. split; [reflexivity|].
  refine (proj2 (extractField_repeatable "f()" Examples.counted event' (VInt 0) w0 w' _) w').
  reflexivity.
Defined.
